(** * jsonrpc2: the JSON-RPC 2.0 server codec

    A shallow embedding of the server codec of package [jsonrpc2]
    (the codec file and [error.go]) and the properties of its three
    operations [ReadRequestHeader], [ReadRequestBody] and [WriteResponse].

    Conventions of the embedding:
    - a Go [string] and a [[]byte] are a [string] (a list of 8-bit characters);
    - a [uint64] is a [Z] in [0, 2^64), the wrap-around of [c.seq++] is
      written out;
    - a nilable pointer or interface is an [option];
    - [map[uint64]*json.RawMessage] is a [gmap Z (option RawMessage)]: a key
      can be present and hold the nil pointer;
    - a method with a pointer receiver takes the codec and returns the codec
      it leaves behind, together with its Go result;
    - package [encoding/json] and the connection are not part of the
      package: they are the interfaces [JSON] and [ReadWriteCloser]. *)

From Stdlib Require Import ZArith String Ascii List DecimalString.
From stdpp Require Import base option gmap strings list.

Local Open Scope string_scope.
Local Open Scope Z_scope.

(** ** Values of the Go side *)

(** [json.RawMessage]: the bytes of one JSON value, not interpreted. *)
Definition RawMessage : Type := string.

(** The dynamic values an [interface{}] holds when it is not nil. *)
#[warnings="-register-all"]
Inductive Any : Type :=
  | AString (s : string)
  | AInt (n : Z)
  | ABool (b : bool)
  | ASlice (l : list Any)
  | AStruct (fields : list (string * Any)).

(** [error.go]: [type ErrCode int] and its constants. *)
Definition ErrCode : Type := Z.

Definition ErrCodeParse : ErrCode := -32700.
Definition ErrCodeInvalidReq : ErrCode := -32600.
Definition ErrCodeMethodNotFound : ErrCode := -32601.
Definition ErrCodeInvalidParams : ErrCode := -32602.
Definition ErrCodeInternal : ErrCode := -32603.
Definition ErrCodeServer : ErrCode := -32001.
Definition ErrCodeServiceNotFound : ErrCode := -32002.

Definition ErrMsgParse : string := "Parse error".
Definition ErrMsgInvalidReq : string := "Invalid Request".
Definition ErrMsgMethodNotFound : string := "Method not found".
Definition ErrMsgInvalidParams : string := "Invalid params".
Definition ErrMsgInternal : string := "Internal error".
Definition ErrMsgServiceNotFound : string := "Service not found".

(** [error.go]: [type Error struct]; [Data] is an [interface{}] with the tag
    [omitempty]. *)
Module Error.
Record t : Type := mk {
  Code : ErrCode;
  Msg : string;
  Data : option Any
}.
End Error.

(** A value of the Go interface [error]: a [*Error] of this package, the
    result of [errors.New], or an error of [encoding/json] or of the stream. *)
Inductive error : Type :=
  | ErrorPtr (e : Error.t)
  | errorString (s : string)
  | foreign (descr : string).

Definition errors_New (s : string) : error := errorString s.

(** [const Version = "2.0"] *)
Definition Version : string := "2.0".

(** [type serverRequest struct]: [Params] and [Id] are [*json.RawMessage]. *)
Module serverRequest.
Record t : Type := mk {
  Version : string;
  Method : string;
  Params : option RawMessage;
  Id : option RawMessage
}.

(** [func (r *serverRequest) reset()] *)
Definition reset (r : t) : t :=
  {| Version := EmptyString; Method := EmptyString;
     Params := None; Id := None |}.

Definition set_Id (r : t) (id : option RawMessage) : t :=
  {| Version := Version r; Method := Method r;
     Params := Params r; Id := id |}.
End serverRequest.

(** [type serverResponse struct]: [Result] and [Error] are [interface{}]
    with the tag [omitempty]; [Error] only ever receives the [*Error] of a
    [Response]. *)
Module serverResponse.
Record t : Type := mk {
  Version : string;
  Id : option RawMessage;
  Result : option Any;
  Error : option Error.t
}.
End serverResponse.

(** Modelled from the spec: the header types [Request] and [Response] of the
    dispatch engine, whose declarations are not in the codec file. The codec
    reads and writes [ServiceMethod], [Seq] (a [uint64]) and [Error] (nil, or
    the RPC error of the call). *)
Module Request.
Record t : Type := mk {
  ServiceMethod : string;
  Seq : Z
}.
End Request.

Module Response.
Record t : Type := mk {
  ServiceMethod : string;
  Seq : Z;
  Error : option Error.t
}.
End Response.

(** ** The two interfaces the codec is built on *)

(** [io.ReadWriteCloser], as far as the codec calls it itself: [Write]
    returns the connection it leaves and the error (the byte count is never
    read by the codec or by [json.Encoder]). *)
Class ReadWriteCloser (Conn : Type) : Type := {
  Write : Conn -> string -> Conn * option error;
  Close : Conn -> Conn * option error
}.

(** Package [encoding/json] over a connection.
    - [Decode d conn v] is the method [Decode(&v)] of a [json.Decoder]: it
      reads the next JSON value from the connection into the request [v] and returns the
      request as it leaves it (set also when it fails) and the error.
    - [MarshalAny] and [MarshalRaw] are [json.Marshal] on the content of an
      [interface{}] and on a non-nil [*json.RawMessage].
    - [Unmarshal data v] is [json.Unmarshal(data, &x)] for an interface [x]
      that holds the destination [v]: the destination it leaves, and the
      error. *)
Class JSON (Conn : Type) : Type := {
  Decoder : Type;
  NewDecoder : Conn -> Decoder;
  Decode : Decoder -> Conn -> serverRequest.t ->
           Decoder * Conn * serverRequest.t * option error;
  MarshalAny : Any -> error + string;
  MarshalRaw : RawMessage -> error + string;
  Unmarshal : RawMessage -> Any -> Any * option error
}.

(** ** [strings.LastIndex] *)

(** [LastIndex_from s substr i]: [s] is the suffix of the searched string
    that starts at byte [i]; the index of the last occurrence of [substr] in
    it, counted in the whole string, or -1. *)
Fixpoint LastIndex_from (s substr : string) (i : Z) : Z :=
  match s with
  | EmptyString => if String.prefix substr EmptyString then i else -1
  | String _ s' =>
      let later := LastIndex_from s' substr (i + 1) in
      if 0 <=? later then later
      else if String.prefix substr s then i else -1
  end.

Definition LastIndex (s substr : string) : Z := LastIndex_from s substr 0.

(** The string contains the byte [ch]. *)
Definition contains_byte (ch : ascii) (s : string) : Prop :=
  In ch (list_ascii_of_string s).

(** ** Marshalling the response structs *)

Definition dquote : string := String "034"%char EmptyString.
Definition newline : string := String "010"%char EmptyString.

(** One member of a JSON object under construction: its name and the
    marshalled text of its value, or the error marshalling it gave. *)
Definition member : Type := string * (error + string).

(** A field with the tag [omitempty] whose type is a pointer or an interface
    is left out exactly when it is nil. *)
Definition omitempty {A : Type} (name : string) (v : option A)
    (marshal : A -> error + string) : list member :=
  match v with
  | None => []
  | Some a => [(name, marshal a)]
  end.

(** The members between the braces, separated by commas; the first error
    in field order is the result. *)
Fixpoint object_body (ms : list member) : error + string :=
  match ms with
  | [] => inr EmptyString
  | (name, v) :: rest =>
      match v with
      | inl e => inl e
      | inr txt =>
          match object_body rest with
          | inl e => inl e
          | inr tl =>
              let m := dquote +:+ name +:+ dquote +:+ ":" +:+ txt in
              inr (match rest with [] => m | _ :: _ => m +:+ "," +:+ tl end)
          end
      end
  end.

Definition object (ms : list member) : error + string :=
  match object_body ms with
  | inl e => inl e
  | inr body => inr ("{" +:+ body +:+ "}")
  end.

Section Marshal.
Context {Conn : Type} `{!JSON Conn}.

(** [Error] with its tags [code], [message] and [data,omitempty]. *)
Definition Error_members (e : Error.t) : list member :=
  [("code", MarshalAny (AInt (Error.Code e)));
   ("message", MarshalAny (AString (Error.Msg e)))]
  ++ omitempty "data" (Error.Data e) MarshalAny.

Definition marshal_Error (e : Error.t) : error + string :=
  object (Error_members e).

(** A [*json.RawMessage] field without [omitempty]: the nil pointer is
    the JSON [null]. *)
Definition marshal_Id (id : option RawMessage) : error + string :=
  match id with
  | None => inr "null"
  | Some raw => MarshalRaw raw
  end.

(** [serverResponse] with its tags [jsonrpc], [id], [result,omitempty] and
    [error,omitempty]. *)
Definition members (resp : serverResponse.t) : list member :=
  [("jsonrpc", MarshalAny (AString (serverResponse.Version resp)));
   ("id", marshal_Id (serverResponse.Id resp))]
  ++ omitempty "result" (serverResponse.Result resp) MarshalAny
  ++ omitempty "error" (serverResponse.Error resp) marshal_Error.

Definition member_names (resp : serverResponse.t) : list string :=
  map fst (members resp).

(** [json.Marshal] on a [serverResponse]. *)
Definition Marshal (resp : serverResponse.t) : error + string :=
  object (members resp).
End Marshal.

(** ** The codec *)

(** [var null = json.RawMessage([]byte("null"))] *)
Definition null : RawMessage := "null".

Section Codec.
Context {Conn : Type} `{!ReadWriteCloser Conn} `{!JSON Conn}.

(** [type serverCodec struct]. The encoder [enc] has no state of its own:
    it marshals and writes to [conn] (the field [c] of the source). The
    mutex is held around every access to [seq] and [pending]; each method
    below is one step of one goroutine. *)
Record serverCodec : Type := mkCodec {
  dec : Decoder;
  conn : Conn;
  req : serverRequest.t;
  seq : Z;
  pending : gmap Z (option RawMessage)
}.

Definition set_conn (c : serverCodec) (cn : Conn) : serverCodec :=
  mkCodec (dec c) cn (req c) (seq c) (pending c).

Definition set_pending (c : serverCodec)
    (p : gmap Z (option RawMessage)) : serverCodec :=
  mkCodec (dec c) (conn c) (req c) (seq c) p.

(** [func NewServerCodec(conn io.ReadWriteCloser) ServerCodec] *)
Definition NewServerCodec (cn : Conn) : serverCodec :=
  {| dec := NewDecoder cn; conn := cn;
     req := serverRequest.mk EmptyString EmptyString None None;
     seq := 0; pending := ∅ |}.

(** [c.enc.Encode(resp)]: marshal, append a newline, write; an error of
    the marshalling writes nothing. *)
Definition Encode (c : serverCodec) (resp : serverResponse.t)
    : serverCodec * option error :=
  match Marshal resp with
  | inl e => (c, Some e)
  | inr b =>
      let '(cn, err) := Write (conn c) (b +:+ newline) in
      (set_conn c cn, err)
  end.

(** The [*Error] that [ReadRequestHeader] returns for a method without
    a dot. *)
Definition ill_formed (method : string) : Error.t :=
  {| Error.Code := ErrCodeInvalidReq;
     Error.Msg := ErrMsgInvalidReq;
     Error.Data :=
       Some (AString ("rpc: service/method request ill-formed: " +:+ method)) |}.

(** [func (c *serverCodec) ReadRequestHeader(r *Request) error] *)
Definition ReadRequestHeader (c : serverCodec) (r : Request.t)
    : serverCodec * Request.t * option error :=
  let '(d, cn, rq, err) :=
    Decode (dec c) (conn c) (serverRequest.reset (req c)) in
  match err with
  | Some e => (mkCodec d cn rq (seq c) (pending c), r, Some e)
  | None =>
      let r := Request.mk (serverRequest.Method rq) (Request.Seq r) in
      let dot := LastIndex (Request.ServiceMethod r) "." in
      if dot <? 0 then
        (mkCodec d cn rq (seq c) (pending c), r,
         Some (ErrorPtr (ill_formed (Request.ServiceMethod r))))
      else
        let seq' := (seq c + 1) mod 2 ^ 64 in
        (mkCodec d cn (serverRequest.set_Id rq None) seq'
           (<[seq' := serverRequest.Id rq]> (pending c)),
         Request.mk (Request.ServiceMethod r) seq',
         None)
  end.

(** [func (c *serverCodec) ReadRequestBody(x interface{}) error]: the
    codec is only read; the result is the interface [x] with the
    destination as the call leaves it, and the error. *)
Definition ReadRequestBody (c : serverCodec) (x : option Any)
    : option Any * option error :=
  match x with
  | None => (None, None)
  | Some v =>
      match serverRequest.Params (req c) with
      | None =>
          (Some v,
           Some (ErrorPtr {| Error.Code := ErrCodeInvalidParams;
                             Error.Msg := ErrMsgInvalidParams;
                             Error.Data := None |}))
      | Some params =>
          let '(v', err) := Unmarshal params v in
          match err with
          | Some _ =>
              (Some v',
               Some (ErrorPtr {| Error.Code := ErrCodeParse;
                                 Error.Msg := ErrMsgParse;
                                 Error.Data := None |}))
          | None => (Some v', None)
          end
      end
  end.

(** [func (c *serverCodec) WriteResponse(r *Response, x interface{}) error] *)
Definition WriteResponse (c : serverCodec) (r : Response.t) (x : option Any)
    : serverCodec * option error :=
  match pending c !! Response.Seq r with
  | None =>
      match Response.Error r with
      | Some e =>
          Encode c {| serverResponse.Version := Version;
                      serverResponse.Id := Some null;
                      serverResponse.Result := None;
                      serverResponse.Error := Some e |}
      | None => (c, Some (errors_New "invalid sequence number in response"))
      end
  | Some b =>
      let c := set_pending c (delete (Response.Seq r) (pending c)) in
      match b with
      | None =>
          let '(cn, _) := Write (conn c) newline in
          (set_conn c cn, None)
      | Some _ =>
          Encode c
            (match Response.Error r with
             | None =>
                 {| serverResponse.Version := Version;
                    serverResponse.Id := b;
                    serverResponse.Result := x;
                    serverResponse.Error := None |}
             | Some e =>
                 {| serverResponse.Version := Version;
                    serverResponse.Id := b;
                    serverResponse.Result := None;
                    serverResponse.Error := Some e |}
             end)
      end
  end.

(** [func (c *serverCodec) Close() error] *)
Definition Close_codec (c : serverCodec) : serverCodec * option error :=
  let '(cn, err) := Close (conn c) in (set_conn c cn, err).
End Codec.

Arguments serverCodec Conn {_}.

(** ** The bare method name of the specification *)

(** The specification speaks of "the bare method name (without the
    qualifier)": the part of the method string after its last dot. This
    definition follows those words; it is not taken from the source. *)
Definition spec_bare_method_name (method : string) : string :=
  let dot := LastIndex method "." in
  String.substring (Z.to_nat (dot + 1))
    (String.length method - Z.to_nat (dot + 1)) method.

(** ** A connection and a JSON layer to run the codec on *)

(** An in-memory connection. [incoming] holds what the peer has sent, one
    entry per JSON value, as the outcome its decoding has; [outgoing] is
    every byte written so far; a closed pipe refuses writes. *)
Record Pipe : Type := mkPipe {
  incoming : list (serverRequest.t * option error);
  outgoing : string;
  closed : bool
}.

Definition Pipe_Write (p : Pipe) (b : string) : Pipe * option error :=
  if closed p then (p, Some (foreign "io: read/write on closed pipe"))
  else (mkPipe (incoming p) (outgoing p +:+ b) false, None).

Definition Pipe_Close (p : Pipe) : Pipe * option error :=
  (mkPipe (incoming p) (outgoing p) true, None).

#[export] Instance Pipe_ReadWriteCloser : ReadWriteCloser Pipe :=
  {| Write := Pipe_Write; Close := Pipe_Close |}.

Definition Pipe_Decode (d : unit) (p : Pipe) (v : serverRequest.t)
    : unit * Pipe * serverRequest.t * option error :=
  match incoming p with
  | [] => (d, p, v, Some (foreign "EOF"))
  | (rq, err) :: rest => (d, mkPipe rest (outgoing p) (closed p), rq, err)
  end.

(** Marshalling of integers, booleans and strings of plain characters. *)
Definition Pipe_MarshalAny (v : Any) : error + string :=
  match v with
  | AInt n => inr (NilZero.string_of_int (Z.to_int n))
  | ABool b => inr (if b then "true" else "false")
  | AString s => inr (dquote +:+ s +:+ dquote)
  | _ => inl (foreign "json: unsupported value")
  end.

(** The texts between the commas of [s], blanks dropped; [cur] is the text
    read since the last comma. *)
Fixpoint comma_fields (s cur : string) : list string :=
  match s with
  | EmptyString => [cur]
  | String a s' =>
      if Ascii.eqb a "," then cur :: comma_fields s' EmptyString
      else if Ascii.eqb a " " then comma_fields s' cur
      else comma_fields s' (cur +:+ String a EmptyString)
  end.

(** The text between the brackets of a JSON array. *)
Definition unbracket (s : string) : option string :=
  let n := String.length s in
  match String.get 0 s, String.get (n - 1) s with
  | Some "["%char, Some "]"%char => Some (String.substring 1 (n - 2) s)
  | _, _ => None
  end.

Definition parse_int (s : string) : option Any :=
  match s with
  | EmptyString => None
  | _ => (fun n => AInt (Z.of_int n)) <$> NilZero.int_of_string s
  end.

Definition parse_ints (inner : string) : option (list Any) :=
  match inner with
  | EmptyString => Some []
  | _ => mapM parse_int (comma_fields inner EmptyString)
  end.

(** Unmarshalling of a decimal number into an integer destination and of
    an array of decimal numbers into a slice destination. *)
Definition Pipe_Unmarshal (data : RawMessage) (v : Any) : Any * option error :=
  match v with
  | AInt _ =>
      match parse_int data with
      | Some n => (n, None)
      | None => (v, Some (foreign "json: cannot unmarshal into int"))
      end
  | ASlice _ =>
      match unbracket data ≫= parse_ints with
      | Some l => (ASlice l, None)
      | None => (v, Some (foreign "json: cannot unmarshal into []int"))
      end
  | _ => (v, Some (foreign "json: cannot unmarshal"))
  end.

#[export] Instance Pipe_JSON : JSON Pipe :=
  {| Decoder := unit;
     NewDecoder := fun _ => tt;
     Decode := Pipe_Decode;
     MarshalAny := Pipe_MarshalAny;
     MarshalRaw := fun raw => inr raw;
     Unmarshal := Pipe_Unmarshal |}.

(** The requests of the test table, as decoded. *)
Definition Arith_Sub_1 : serverRequest.t :=
  serverRequest.mk "2.0" "Arith.Sub" (Some "[42, 23]") (Some "1").

Definition Notification_Update : serverRequest.t :=
  serverRequest.mk "2.0" "Notification.Update" (Some "[1,2,3,4,5]") None.

Definition Arith_Foobar : serverRequest.t :=
  serverRequest.mk "2.0" "Arith.Foobar" None
    (Some (dquote +:+ "1" +:+ dquote)).

Definition foobar_no_dot : serverRequest.t :=
  serverRequest.mk "2.0" "foobar" (Some "[1]") (Some "7").

Definition Arith_Sub_old_version : serverRequest.t :=
  serverRequest.mk "1.0" "Arith.Sub" (Some "[42, 23]") (Some "1").

Definition Arith_Sub_no_version : serverRequest.t :=
  serverRequest.mk EmptyString "Arith.Sub" (Some "[42, 23]") (Some "1").

(** An open pipe on which the peer has sent the given requests, and the
    codec [NewServerCodec] makes on it. *)
Definition pipe_with (rqs : list serverRequest.t) : Pipe :=
  mkPipe (map (fun rq => (rq, None)) rqs) EmptyString false.

Definition codec_on (rqs : list serverRequest.t) : serverCodec Pipe :=
  NewServerCodec (pipe_with rqs).

Definition Request_zero : Request.t := Request.mk EmptyString 0.

(** The codec after the header of the first request on the pipe was read. *)
Definition after_header (rqs : list serverRequest.t) : serverCodec Pipe :=
  (ReadRequestHeader (codec_on rqs) Request_zero).1.1.

(** The same codec once the peer has hung up. *)
Definition hang_up (c : serverCodec Pipe) : serverCodec Pipe :=
  (Close_codec c).1.

Definition Method_not_found : Error.t :=
  Error.mk ErrCodeMethodNotFound ErrMsgMethodNotFound None.

(** ** Runs of a codec *)

(** One call of the dispatch engine on the codec. *)
Inductive call : Type :=
  | CallReadRequestHeader (r : Request.t)
  | CallReadRequestBody (x : option Any)
  | CallWriteResponse (r : Response.t) (x : option Any).

Section Runs.
Context {Conn : Type} `{!ReadWriteCloser Conn} `{!JSON Conn}.

(** The codec a call leaves behind. *)
Definition step (c : serverCodec Conn) (k : call) : serverCodec Conn :=
  match k with
  | CallReadRequestHeader r => (ReadRequestHeader c r).1.1
  | CallReadRequestBody _ => c
  | CallWriteResponse r x => (WriteResponse c r x).1
  end.

Definition run (c : serverCodec Conn) (ks : list call) : serverCodec Conn :=
  fold_left step ks c.

(** Every pending sequence number was allocated: it lies in [1, seq]. *)
Definition pending_allocated (c : serverCodec Conn) : Prop :=
  ∀ n, is_Some (pending c !! n) → 1 ≤ n ≤ seq c.

(** What [Decode] makes of the next value on the stream, for a codec
    about to read a header: the request and the error. *)
Definition decoded (c : serverCodec Conn) : serverRequest.t * option error :=
  let '(_, _, rq, err) :=
    Decode (dec c) (conn c) (serverRequest.reset (req c)) in
  (rq, err).
End Runs.

(** ** The text of an error *)

(** The verb [%v] of package [fmt] on the content of an [interface{}]:
    a string as it is, an integer in decimal, a slice between brackets and
    the fields of a struct between braces, separated by blanks. *)
Fixpoint Sprint (v : Any) : string :=
  match v with
  | AString s => s
  | AInt n => NilZero.string_of_int (Z.to_int n)
  | ABool b => if b then "true" else "false"
  | ASlice l =>
      "[" +:+
      (fix elements (l : list Any) : string :=
         match l with
         | [] => EmptyString
         | a :: rest =>
             Sprint a +:+
             match rest with
             | [] => EmptyString
             | _ :: _ => " " +:+ elements rest
             end
         end) l +:+ "]"
  | AStruct fs =>
      "{" +:+
      (fix fields (fs : list (string * Any)) : string :=
         match fs with
         | [] => EmptyString
         | f :: rest =>
             Sprint f.2 +:+
             match rest with
             | [] => EmptyString
             | _ :: _ => " " +:+ fields rest
             end
         end) fs +:+ "}"
  end.

(** [func (e *Error) Error() string]:
    [fmt.Sprintf("%v - %s: %v", e.Code, e.Msg, e.Data)]; [%v] prints a nil
    interface as [<nil>] and an [ErrCode], an [int] without methods, in
    decimal. *)
Definition Error_Error (e : Error.t) : string :=
  NilZero.string_of_int (Z.to_int (Error.Code e)) +:+ " - " +:+ Error.Msg e
  +:+ ": " +:+
  match Error.Data e with
  | None => "<nil>"
  | Some v => Sprint v
  end.

(** ** Calls that answer a sequence number *)

(** The call is a [WriteResponse] for the sequence number [n]. *)
Definition answers (n : Z) (k : call) : Prop :=
  match k with
  | CallWriteResponse r _ => Response.Seq r = n
  | _ => False
  end.

(** More requests to run the codec on. *)
Definition Arith_Sub_2 : serverRequest.t :=
  serverRequest.mk "2.0" "Arith.Sub" (Some "[23, 42]") (Some "2").

Definition dot_only : serverRequest.t :=
  serverRequest.mk "2.0" "." None (Some "3").

(** A codec whose counter is at the maximum of [uint64], with an entry
    left under the sequence number 0, about to read [Arith.Sub] 2. *)
Definition codec_at_max : serverCodec Pipe :=
  mkCodec (dec (codec_on [Arith_Sub_2])) (conn (codec_on [Arith_Sub_2]))
    Arith_Sub_1 (2 ^ 64 - 1) {[0 := Some "1"]}.

(** * Properties *)

(** ** [strings.LastIndex] on the separator *)

Lemma prefix_dot (s : string) :
  String.prefix "." s = true ↔ ∃ s', s = String "."%char s'.
Proof.
  destruct s as [|a s']; cbn [String.prefix].
  - split; [discriminate | intros [? ?]; discriminate].
  - destruct (ascii_dec "." a) as [<- | Hne].
    + split; [eauto | intros _; now destruct s'].
    + split; [discriminate | intros [? [= ? ?]]; congruence].
Qed.

Lemma LastIndex_from_bounds (s sub : string) (i : Z) :
  LastIndex_from s sub i = -1 ∨
  i ≤ LastIndex_from s sub i ≤ i + Z.of_nat (String.length s).
Proof.
  revert i; induction s as [|a s IH]; intros i.
  - cbn [LastIndex_from String.length].
    destruct (String.prefix sub EmptyString); lia.
  - cbn [LastIndex_from String.length]. destruct (IH (i + 1)) as [-> | Hin].
    + change (0 <=? -1) with false. cbv iota.
      destruct (String.prefix sub (String a s)); lia.
    + destruct (Z.leb_spec 0 (LastIndex_from s sub (i + 1))); [lia |].
      destruct (String.prefix sub (String a s)); lia.
Qed.

(** From a non-negative offset, the search fails exactly on the strings
    without a dot. *)
Lemma LastIndex_from_dot (s : string) (i : Z) :
  0 ≤ i →
  LastIndex_from s "." i < 0 ↔ ¬ contains_byte "." s.
Proof.
  unfold contains_byte. revert i; induction s as [|a s IH]; intros i Hi.
  - cbn. split; [tauto | lia].
  - cbn [LastIndex_from list_ascii_of_string].
    specialize (IH (i + 1) ltac:(lia)).
    destruct (LastIndex_from_bounds s "." (i + 1)) as [Hm | Hin].
    + rewrite Hm in *. change (0 <=? -1) with false. cbv iota.
      assert (Hs : ¬ In "."%char (list_ascii_of_string s)) by (apply IH; lia).
      destruct (String.prefix "." (String a s)) eqn:Hp.
      * apply prefix_dot in Hp as [s' [= -> ->]].
        split; [lia | intros Hn; exfalso; apply Hn; now left].
      * split; [| lia]. intros _ [Ha | Hin]; [subst a | tauto].
        enough (String.prefix "." (String "." s) = true) by congruence.
        apply prefix_dot. eauto.
    + destruct (Z.leb_spec 0 (LastIndex_from s "." (i + 1))); [| lia].
      split; [lia |]. intros Hn. exfalso. apply Hn. right.
      destruct (in_dec ascii_dec "."%char (list_ascii_of_string s))
        as [Hd | Hd]; [exact Hd |].
      apply IH in Hd. lia.
Qed.

(** [dot < 0] in [ReadRequestHeader] says that the method has no dot. *)
Lemma LastIndex_dot_negative (method : string) :
  (LastIndex method "." <? 0) = true ↔ ¬ contains_byte "." method.
Proof.
  unfold LastIndex. rewrite Z.ltb_lt. now apply LastIndex_from_dot.
Qed.

Lemma LastIndex_dot_found (method : string) :
  (LastIndex method "." <? 0) = false ↔ contains_byte "." method.
Proof.
  rewrite <- Bool.not_true_iff_false, LastIndex_dot_negative.
  unfold contains_byte. split; [| tauto].
  intros Hnn.
  destruct (in_dec ascii_dec "."%char (list_ascii_of_string method)); tauto.
Qed.

Lemma get_contains_byte (s : string) (n : nat) (ch : ascii) :
  String.get n s = Some ch → contains_byte ch s.
Proof.
  unfold contains_byte. revert n; induction s as [|a s IH]; intros n.
  - destruct n; discriminate.
  - destruct n as [|n]; cbn [String.get list_ascii_of_string].
    + intros [= ->]. now left.
    + intros Hn. right. eauto.
Qed.

(** When the search succeeds, the index it returns holds a dot and no
    later index does: it is the last dot of the string. *)
Lemma LastIndex_from_dot_last (s : string) (i : Z) :
  0 ≤ i → 0 ≤ LastIndex_from s "." i →
  String.get (Z.to_nat (LastIndex_from s "." i - i)) s = Some "."%char ∧
  ∀ n : nat, LastIndex_from s "." i - i < Z.of_nat n →
             String.get n s ≠ Some "."%char.
Proof.
  revert i; induction s as [|a s IH]; intros i Hi.
  - cbn. lia.
  - cbn [LastIndex_from].
    destruct (LastIndex_from_bounds s "." (i + 1)) as [Hm | Hin].
    + rewrite Hm. change (0 <=? -1) with false. cbv iota.
      destruct (String.prefix "." (String a s)) eqn:Hp; [| lia].
      apply prefix_dot in Hp as [s' [= -> ->]]. intros _.
      replace (i - i) with 0 by lia. split; [reflexivity |].
      intros [|n] Hn; [lia |]. cbn [String.get]. intros Hget.
      apply get_contains_byte in Hget.
      apply (LastIndex_from_dot s' (i + 1)) in Hget; lia.
    + destruct (Z.leb_spec 0 (LastIndex_from s "." (i + 1))); [| lia].
      intros _. destruct (IH (i + 1)) as [Hget Hlast]; [lia | lia |].
      replace (Z.to_nat (LastIndex_from s "." (i + 1) - i))
        with (S (Z.to_nat (LastIndex_from s "." (i + 1) - (i + 1)))) by lia.
      split; [exact Hget |].
      intros [|n] Hn; [lia |]. cbn [String.get]. apply Hlast. lia.
Qed.

Lemma LastIndex_dot_last (method : string) :
  contains_byte "." method →
  0 ≤ LastIndex method "." < Z.of_nat (String.length method) ∧
  String.get (Z.to_nat (LastIndex method ".")) method = Some "."%char ∧
  ∀ n : nat, LastIndex method "." < Z.of_nat n →
             String.get n method ≠ Some "."%char.
Proof.
  intros Hdot. apply LastIndex_dot_found, Z.ltb_ge in Hdot.
  destruct (LastIndex_from_dot_last method 0) as [Hget Hlast]; [lia | done |].
  fold (LastIndex method ".") in Hget, Hlast.
  rewrite Z.sub_0_r in Hget.
  split; [split; [done |] | split; [done |]].
  - destruct (Z.lt_ge_cases (LastIndex method ".")
                (Z.of_nat (String.length method))) as [|Hge]; [done |].
    exfalso. revert Hget.
    assert (Hnone : ∀ (t : string) (n : nat),
               (String.length t ≤ n)%nat → String.get n t = None).
    { induction t as [|b t IHt]; intros [|n] Hle; cbn in *;
        try done; try lia. apply IHt. lia. }
    rewrite Hnone by lia. discriminate.
  - intros n Hn. apply Hlast. lia.
Qed.

(** ** Basic facts on the operations *)

Section Properties.
Context {Conn : Type} `{!ReadWriteCloser Conn} `{!JSON Conn}.
Implicit Types (c : serverCodec Conn) (r : Response.t) (x : option Any).

Lemma Encode_pending c resp : pending (Encode c resp).1 = pending c.
Proof.
  unfold Encode. destruct (Marshal resp); [done |].
  by destruct (Write _ _).
Qed.

Lemma Encode_seq c resp : seq (Encode c resp).1 = seq c.
Proof.
  unfold Encode. destruct (Marshal resp); [done |].
  by destruct (Write _ _).
Qed.

(** Whatever branch it takes, [WriteResponse] leaves the table without
    an entry for the sequence number of the response, and touches no
    other entry. *)
Lemma WriteResponse_pending c r x :
  pending (WriteResponse c r x).1 = delete (Response.Seq r) (pending c).
Proof.
  unfold WriteResponse.
  destruct (pending c !! Response.Seq r) as [[b|]|] eqn:Hp.
  - by rewrite Encode_pending.
  - cbn. by destruct (Write _ _).
  - rewrite delete_id by done.
    destruct (Response.Error r); [by rewrite Encode_pending | done].
Qed.

Lemma WriteResponse_seq c r x : seq (WriteResponse c r x).1 = seq c.
Proof.
  unfold WriteResponse.
  destruct (pending c !! Response.Seq r) as [[b|]|].
  - by rewrite Encode_seq.
  - cbn. by destruct (Write _ _).
  - destruct (Response.Error r); [by rewrite Encode_seq | done].
Qed.

(** The three outcomes of [ReadRequestHeader], by what the decoder
    returns. *)
Lemma ReadRequestHeader_decode_failure c rh rq e :
  decoded c = (rq, Some e) →
  (ReadRequestHeader c rh).2 = Some e ∧
  (ReadRequestHeader c rh).1.2 = rh ∧
  seq (ReadRequestHeader c rh).1.1 = seq c ∧
  pending (ReadRequestHeader c rh).1.1 = pending c ∧
  req (ReadRequestHeader c rh).1.1 = rq.
Proof.
  unfold decoded, ReadRequestHeader.
  destruct (Decode _ _ _) as [[[d cn] rq'] err'].
  by intros [= -> ->].
Qed.

Lemma ReadRequestHeader_ill_formed c rh rq :
  decoded c = (rq, None) →
  ¬ contains_byte "." (serverRequest.Method rq) →
  (ReadRequestHeader c rh).2
    = Some (ErrorPtr (ill_formed (serverRequest.Method rq))) ∧
  (ReadRequestHeader c rh).1.2
    = Request.mk (serverRequest.Method rq) (Request.Seq rh) ∧
  seq (ReadRequestHeader c rh).1.1 = seq c ∧
  pending (ReadRequestHeader c rh).1.1 = pending c ∧
  req (ReadRequestHeader c rh).1.1 = rq.
Proof.
  unfold decoded, ReadRequestHeader.
  destruct (Decode _ _ _) as [[[d cn] rq'] err'].
  intros [= -> ->] Hdot. apply LastIndex_dot_negative in Hdot.
  cbn [Request.ServiceMethod]. by rewrite Hdot.
Qed.

Lemma ReadRequestHeader_well_formed c rh rq :
  decoded c = (rq, None) →
  contains_byte "." (serverRequest.Method rq) →
  (ReadRequestHeader c rh).2 = None ∧
  (ReadRequestHeader c rh).1.2
    = Request.mk (serverRequest.Method rq) ((seq c + 1) mod 2 ^ 64) ∧
  seq (ReadRequestHeader c rh).1.1 = (seq c + 1) mod 2 ^ 64 ∧
  pending (ReadRequestHeader c rh).1.1
    = <[(seq c + 1) mod 2 ^ 64 := serverRequest.Id rq]> (pending c) ∧
  req (ReadRequestHeader c rh).1.1 = serverRequest.set_Id rq None.
Proof.
  unfold decoded, ReadRequestHeader.
  destruct (Decode _ _ _) as [[[d cn] rq'] err'].
  intros [= -> ->] Hdot. apply LastIndex_dot_found in Hdot.
  cbn [Request.ServiceMethod]. by rewrite Hdot.
Qed.

(** The decoder always returns something: one of the three cases
    applies. *)
Lemma decoded_cases c :
  (∃ rq e, decoded c = (rq, Some e)) ∨
  (∃ rq, decoded c = (rq, None)
         ∧ ¬ contains_byte "." (serverRequest.Method rq)) ∨
  (∃ rq, decoded c = (rq, None)
         ∧ contains_byte "." (serverRequest.Method rq)).
Proof.
  destruct (decoded c) as [rq [e|]]; [left; eauto |].
  right.
  destruct (in_dec ascii_dec "."%char
              (list_ascii_of_string (serverRequest.Method rq)));
    [right | left]; eauto.
Qed.

(** ** Runs without wrap-around of the counter *)

Lemma step_seq c k :
  0 ≤ seq c < 2 ^ 64 - 1 → seq c ≤ seq (step c k) ≤ seq c + 1.
Proof.
  intros Hs. destruct k as [rh | x | r x]; cbn [step]; [| lia |].
  - destruct (decoded_cases c) as [(rq & e & Hd) | [(rq & Hd & Hm) | (rq & Hd & Hm)]].
    + destruct (ReadRequestHeader_decode_failure c rh rq e Hd) as (_ & _ & -> & _).
      lia.
    + destruct (ReadRequestHeader_ill_formed c rh rq Hd Hm) as (_ & _ & -> & _).
      lia.
    + destruct (ReadRequestHeader_well_formed c rh rq Hd Hm) as (_ & _ & -> & _).
      rewrite Z.mod_small; lia.
  - rewrite WriteResponse_seq. lia.
Qed.

Lemma step_pending_allocated c k :
  0 ≤ seq c < 2 ^ 64 - 1 → pending_allocated c → pending_allocated (step c k).
Proof.
  intros Hs Ha n. destruct k as [rh | x | r x]; cbn [step]; [| apply Ha |].
  - destruct (decoded_cases c) as [(rq & e & Hd) | [(rq & Hd & Hm) | (rq & Hd & Hm)]].
    + destruct (ReadRequestHeader_decode_failure c rh rq e Hd) as (_ & _ & -> & -> & _).
      apply Ha.
    + destruct (ReadRequestHeader_ill_formed c rh rq Hd Hm) as (_ & _ & -> & -> & _).
      apply Ha.
    + destruct (ReadRequestHeader_well_formed c rh rq Hd Hm) as (_ & _ & -> & -> & _).
      rewrite Z.mod_small by lia.
      destruct (decide (n = seq c + 1)) as [-> | Hne]; [lia |].
      rewrite lookup_insert_ne by done. intros Hn%Ha. lia.
  - rewrite WriteResponse_pending, WriteResponse_seq.
    destruct (decide (n = Response.Seq r)) as [-> | Hne].
    + rewrite lookup_delete_eq. by intros [? ?].
    + rewrite lookup_delete_ne by done. apply Ha.
Qed.

(** A run of fewer than 2^64 calls from a state that satisfies the
    invariant keeps it, and the counter counts at most the calls. *)
Lemma run_invariant ks c :
  0 ≤ seq c → seq c + Z.of_nat (length ks) < 2 ^ 64 →
  pending_allocated c →
  seq c ≤ seq (run c ks) ≤ seq c + Z.of_nat (length ks)
  ∧ pending_allocated (run c ks).
Proof.
  revert c; induction ks as [|k ks IH]; intros c H0 Hlen Ha.
  - cbn. split; [lia | done].
  - cbn [run fold_left length] in *.
    assert (Hc : 0 ≤ seq c < 2 ^ 64 - 1) by lia.
    pose proof (step_seq c k Hc) as Hstep.
    pose proof (step_pending_allocated c k Hc Ha) as Ha'.
    destruct (IH (step c k)) as [Hseq Hall]; [lia | lia | done |].
    unfold run in *. split; [lia | done].
Qed.

Lemma NewServerCodec_allocated (cn : Conn) :
  pending_allocated (NewServerCodec cn).
Proof. intros n. cbn. rewrite lookup_empty. by intros [? ?]. Qed.

(** On a codec that has served fewer than 2^64 calls the sequence
    number 0, the zero value of a header, has no pending entry. *)
Lemma run_pending_zero (cn : Conn) ks :
  Z.of_nat (length ks) < 2 ^ 64 →
  pending (run (NewServerCodec cn) ks) !! 0 = None.
Proof.
  intros Hlen.
  destruct (run_invariant ks (NewServerCodec cn)) as [_ Ha];
    [cbn; lia | cbn; lia | apply NewServerCodec_allocated |].
  destruct (pending _ !! 0) eqn:Hp; [| done].
  specialize (Ha 0 ltac:(by rewrite Hp)). lia.
Qed.

(** Once answered, a sequence number stays without an entry for as long
    as the counter does not wrap. *)
Lemma run_answered_stays_answered ks c n :
  0 ≤ seq c → seq c + Z.of_nat (length ks) < 2 ^ 64 →
  n ≤ seq c → pending c !! n = None →
  pending (run c ks) !! n = None.
Proof.
  revert c; induction ks as [|k ks IH]; intros c H0 Hlen Hn Hp; [done |].
  cbn [run fold_left length] in *.
  assert (Hc : 0 ≤ seq c < 2 ^ 64 - 1) by lia.
  pose proof (step_seq c k Hc) as Hstep.
  apply IH; [lia | lia | lia |].
  destruct k as [rh | x | r x]; cbn [step]; [| done |].
  - destruct (decoded_cases c) as [(rq & e & Hd) | [(rq & Hd & Hm) | (rq & Hd & Hm)]].
    + by destruct (ReadRequestHeader_decode_failure c rh rq e Hd) as (_ & _ & _ & -> & _).
    + by destruct (ReadRequestHeader_ill_formed c rh rq Hd Hm) as (_ & _ & _ & -> & _).
    + destruct (ReadRequestHeader_well_formed c rh rq Hd Hm) as (_ & _ & _ & -> & _).
      rewrite Z.mod_small by lia. rewrite lookup_insert_ne by lia. done.
  - rewrite WriteResponse_pending.
    destruct (decide (n = Response.Seq r)) as [-> | Hne].
    + apply lookup_delete_eq.
    + by rewrite lookup_delete_ne.
Qed.
End Properties.

(** * The operations of the codec *)

Section Claims.
Context {Conn : Type} `{!ReadWriteCloser Conn} `{!JSON Conn}.
Implicit Types (c : serverCodec Conn) (r : Response.t) (x : option Any).

(** ** Reading a request header *)


(** C6, as the code has it. For a successfully decoded request whose method
  contains a dot, [ReadRequestHeader] returns no error, the sequence
  number it allocated (the counter plus one, modulo 2^64), under which the
  raw identifier is now pending, and the method string exactly as decoded,
  qualifier included. *)
Theorem ReadRequestHeader_returns_full_method c rh rq :
decoded c = (rq, None) →
contains_byte "." (serverRequest.Method rq) →
(ReadRequestHeader c rh).2 = None ∧
Request.Seq (ReadRequestHeader c rh).1.2 = (seq c + 1) mod 2 ^ 64 ∧
seq (ReadRequestHeader c rh).1.1 = Request.Seq (ReadRequestHeader c rh).1.2 ∧
pending (ReadRequestHeader c rh).1.1
  !! Request.Seq (ReadRequestHeader c rh).1.2 = Some (serverRequest.Id rq) ∧
Request.ServiceMethod (ReadRequestHeader c rh).1.2 = serverRequest.Method rq.
Proof.
intros Hd Hm.
destruct (ReadRequestHeader_well_formed c rh rq Hd Hm)
  as (-> & -> & -> & -> & _).
cbn [Request.Seq Request.ServiceMethod].
by rewrite lookup_insert_eq.
Qed.

(** C8, as the code has it. [ReadRequestHeader] accepts a successfully
  decoded request exactly when its method contains a dot: the protocol
  version is decoded and kept in the work space, and plays no part. *)
Theorem ReadRequestHeader_accepts_iff_qualified c rh rq :
decoded c = (rq, None) →
((ReadRequestHeader c rh).2 = None
 ↔ contains_byte "." (serverRequest.Method rq)) ∧
serverRequest.Version (req (ReadRequestHeader c rh).1.1)
  = serverRequest.Version rq.
Proof.
intros Hd.
destruct (in_dec ascii_dec "."%char
            (list_ascii_of_string (serverRequest.Method rq))) as [Hm | Hm].
- destruct (ReadRequestHeader_well_formed c rh rq Hd Hm)
    as (-> & _ & _ & _ & ->).
  by split.
- destruct (ReadRequestHeader_ill_formed c rh rq Hd Hm)
    as (-> & _ & _ & _ & ->).
  split; [| done]. split; [discriminate | intros; by destruct Hm].
Qed.

(** C9. A request that is rejected, because the decoder fails or because
  its method has no dot, gets an error before anything is allocated: the
  counter, the pending table and the sequence number of the header are as
  they were. *)
Theorem ReadRequestHeader_rejected_allocates_nothing c rh rq err :
decoded c = (rq, err) →
is_Some err ∨ ¬ contains_byte "." (serverRequest.Method rq) →
is_Some (ReadRequestHeader c rh).2 ∧
seq (ReadRequestHeader c rh).1.1 = seq c ∧
pending (ReadRequestHeader c rh).1.1 = pending c ∧
Request.Seq (ReadRequestHeader c rh).1.2 = Request.Seq rh.
Proof.
intros Hd Hrej. destruct err as [e|].
- destruct (ReadRequestHeader_decode_failure c rh rq e Hd)
    as (-> & -> & -> & -> & _).
  by eauto.
- destruct Hrej as [[? [=]] | Hm].
  destruct (ReadRequestHeader_ill_formed c rh rq Hd Hm)
    as (-> & -> & -> & -> & _).
  by eauto.
Qed.

(** ** Reading the parameters *)

(** C5. After a header was read, [ReadRequestBody] on a nil destination
  returns nil and decodes nothing; on a destination, it returns the
  [*Error] -32602 "Invalid params" when the request had no params,
  the [*Error] -32700 "Parse error" when unmarshalling the raw params
  into the destination fails, and nil with the destination as the
  unmarshalling filled it otherwise. *)
Theorem ReadRequestBody_outcomes c rh rq err v :
decoded c = (rq, err) →
ReadRequestBody (ReadRequestHeader c rh).1.1 None = (None, None) ∧
(serverRequest.Params rq = None →
 ReadRequestBody (ReadRequestHeader c rh).1.1 (Some v) =
   (Some v,
    Some (ErrorPtr {| Error.Code := -32602;
                      Error.Msg := "Invalid params";
                      Error.Data := None |}))) ∧
(∀ params v' e,
   serverRequest.Params rq = Some params →
   Unmarshal params v = (v', Some e) →
   (ReadRequestBody (ReadRequestHeader c rh).1.1 (Some v)).2 =
     Some (ErrorPtr {| Error.Code := -32700;
                       Error.Msg := "Parse error";
                       Error.Data := None |})) ∧
(∀ params v',
   serverRequest.Params rq = Some params →
   Unmarshal params v = (v', None) →
   ReadRequestBody (ReadRequestHeader c rh).1.1 (Some v) = (Some v', None)).
Proof.
intros Hd.
assert (Hreq : serverRequest.Params (req (ReadRequestHeader c rh).1.1)
               = serverRequest.Params rq).
{ destruct err as [e|].
  - by destruct (ReadRequestHeader_decode_failure c rh rq e Hd)
      as (_ & _ & _ & _ & ->).
  - destruct (in_dec ascii_dec "."%char
                (list_ascii_of_string (serverRequest.Method rq)))
      as [Hm | Hm].
    + by destruct (ReadRequestHeader_well_formed c rh rq Hd Hm)
        as (_ & _ & _ & _ & ->).
    + by destruct (ReadRequestHeader_ill_formed c rh rq Hd Hm)
        as (_ & _ & _ & _ & ->). }
unfold ReadRequestBody. rewrite Hreq.
split; [done |]. split; [by intros -> |].
split; intros params v'.
- intros e -> Hu. by rewrite Hu.
- intros -> Hu. by rewrite Hu.
Qed.

(** ** Writing a response *)

(** C1. After a [WriteResponse] for a sequence number, the table has no
  entry for it, and a second [WriteResponse] with the same sequence
  number and no error returns the local error of [errors.New] and leaves
  the codec, and so the stream, as it was: no second envelope is
  written. *)
Theorem WriteResponse_at_most_once c r x r2 x2 :
Response.Seq r2 = Response.Seq r →
Response.Error r2 = None →
pending (WriteResponse c r x).1 !! Response.Seq r = None ∧
WriteResponse (WriteResponse c r x).1 r2 x2 =
  ((WriteResponse c r x).1,
   Some (errors_New "invalid sequence number in response")).
Proof.
intros Hseq Herr.
assert (Hp : pending (WriteResponse c r x).1 !! Response.Seq r = None)
  by (rewrite WriteResponse_pending; apply lookup_delete_eq).
split; [exact Hp |].
generalize dependent (WriteResponse c r x).1. intros c1 Hp.
unfold WriteResponse. by rewrite Hseq, Hp, Herr.
Qed.

(** C2, as the code has it. For a notification (the pending entry holds
  the nil identifier) [WriteResponse] encodes no envelope: it removes
  the entry and its only use of the stream is one [Write] of the single
  newline byte. *)
Theorem WriteResponse_notification_only_delimiter c r x :
pending c !! Response.Seq r = Some None →
WriteResponse c r x =
  (mkCodec (dec c) (Write (conn c) newline).1 (req c) (seq c)
     (delete (Response.Seq r) (pending c)),
   None).
Proof.
intros Hp. unfold WriteResponse. rewrite Hp. cbn.
by destruct (Write (conn c) newline).
Qed.


(** C7, as the code has it. For a pending entry with a non-nil identifier
  [WriteResponse] encodes one envelope, with the version "2.0" and the
  stored identifier; with an error in the response it has the member
  [error] with that error and no [result]; with no error and a non-nil
  value it has the member [result] with that value and no [error]; it
  never has both. *)
Theorem WriteResponse_envelope_members c r x b :
pending c !! Response.Seq r = Some (Some b) →
∃ resp,
  WriteResponse c r x =
    Encode (set_pending c (delete (Response.Seq r) (pending c))) resp ∧
  serverResponse.Version resp = "2.0" ∧
  serverResponse.Id resp = Some b ∧
  (∀ e, Response.Error r = Some e →
     serverResponse.Error resp = Some e ∧
     serverResponse.Result resp = None ∧
     member_names resp = ["jsonrpc"; "id"; "error"]) ∧
  (∀ v, Response.Error r = None → x = Some v →
     serverResponse.Result resp = Some v ∧
     serverResponse.Error resp = None ∧
     member_names resp = ["jsonrpc"; "id"; "result"]) ∧
  ¬ (In "result" (member_names resp) ∧ In "error" (member_names resp)).
Proof.
intros Hp. unfold WriteResponse. rewrite Hp.
destruct (Response.Error r) as [e|]; eexists; (split; [reflexivity |]).
- cbn. split; [done |]. split; [done |].
  split; [by intros e' [= <-] |]. split; [done |].
  intros [[[=] | [[=] | [[=] | []]]] _].
- cbn. split; [done |]. split; [done |]. split; [done |].
  split; [by intros v _ -> |].
  destruct x; cbn.
  + intros [_ [[=] | [[=] | [[=] | []]]]].
  + intros [_ [[=] | [[=] | []]]].
Qed.

(** C10. For a notification [WriteResponse] returns nil whatever the
  [Write] of the newline returns: the stream is left as that [Write]
  leaves it and its error is dropped. *)
Theorem WriteResponse_notification_returns_nil c r x :
pending c !! Response.Seq r = Some None →
(WriteResponse c r x).2 = None ∧
conn (WriteResponse c r x).1 = (Write (conn c) newline).1.
Proof.
intros Hp. unfold WriteResponse. rewrite Hp. cbn.
by destruct (Write (conn c) newline).
Qed.

End Claims.

(** ** Whole runs *)

Section RunClaims.
Context {Conn : Type} `{!ReadWriteCloser Conn} `{!JSON Conn}.

Lemma run_app (c : serverCodec Conn) (ks ks' : list call) :
run c (ks ++ ks') = run (run c ks) ks'.
Proof. apply fold_left_app. Qed.

(** X21. In a run of fewer than 2^64 calls from a new codec, a sequence
  number that was pending and then answered is never answered again: every later
  [WriteResponse] for it without an error returns the local error and
  writes nothing. *)
Lemma WriteResponse_once_per_run (cn : Conn) pre r x post r2 x2 :
Z.of_nat (length (pre ++ CallWriteResponse r x :: post)) < 2 ^ 64 →
is_Some (pending (run (NewServerCodec cn) pre) !! Response.Seq r) →
Response.Seq r2 = Response.Seq r →
Response.Error r2 = None →
WriteResponse (run (NewServerCodec cn) (pre ++ CallWriteResponse r x :: post))
    r2 x2 =
  (run (NewServerCodec cn) (pre ++ CallWriteResponse r x :: post),
   Some (errors_New "invalid sequence number in response")).
Proof.
rewrite length_app. cbn [length]. intros Hlen Hsome Hseq Herr.
rewrite run_app.
destruct (run_invariant pre (NewServerCodec cn)) as [Hs Ha];
  [cbn; lia | cbn; lia | apply NewServerCodec_allocated |].
cbn [seq NewServerCodec] in Hs.
set (c0 := run (NewServerCodec cn) pre) in *.
specialize (Ha _ Hsome).
change (run c0 (CallWriteResponse r x :: post))
  with (run (WriteResponse c0 r x).1 post).
assert (Hp : pending (run (WriteResponse c0 r x).1 post) !! Response.Seq r
             = None).
{ apply run_answered_stays_answered.
  - rewrite WriteResponse_seq. lia.
  - rewrite WriteResponse_seq. lia.
  - rewrite WriteResponse_seq. lia.
  - rewrite WriteResponse_pending. apply lookup_delete_eq. }
generalize dependent (run (WriteResponse c0 r x).1 post). intros c1 Hp.
unfold WriteResponse. by rewrite Hseq, Hp, Herr.
Qed.

(** X22. In a run of fewer than 2^64 calls from a new codec, the error
  of a rejected request, answered under the sequence number 0 that a zero
  header keeps, goes out with identifier [null]. *)
Lemma WriteResponse_rejected_zero_seq (cn : Conn) ks r x e :
Z.of_nat (length ks) < 2 ^ 64 →
Response.Seq r = 0 →
Response.Error r = Some e →
WriteResponse (run (NewServerCodec cn) ks) r x =
  Encode (run (NewServerCodec cn) ks)
    {| serverResponse.Version := "2.0";
       serverResponse.Id := Some "null";
       serverResponse.Result := None;
       serverResponse.Error := Some e |}.
Proof.
intros Hlen Hseq He. unfold WriteResponse.
by rewrite Hseq, run_pending_zero, He.
Qed.

End RunClaims.

(** ** The codec on a pipe *)

(** On an open pipe a notification costs the peer exactly one newline. *)
Lemma Pipe_notification_output (c : serverCodec Pipe) r x :
  pending c !! Response.Seq r = Some None →
  closed (conn c) = false →
  outgoing (conn (WriteResponse c r x).1) = outgoing (conn c) +:+ newline.
Proof.
  intros Hp Hopen. unfold WriteResponse. rewrite Hp. cbn.
  unfold Pipe_Write. by rewrite Hopen.
Qed.

(** The first line of the test table: [Arith.Sub] with identifier 1 and
    the result 19. *)
Example TestServer_Arith_Sub :
  outgoing (conn (WriteResponse (after_header [Arith_Sub_1])
                    (Response.mk "Arith.Sub" 1 None) (Some (AInt 19))).1)
  = "{" +:+ dquote +:+ "jsonrpc" +:+ dquote +:+ ":" +:+ dquote +:+ "2.0"
    +:+ dquote +:+ "," +:+ dquote +:+ "id" +:+ dquote +:+ ":1,"
    +:+ dquote +:+ "result" +:+ dquote +:+ ":19}" +:+ newline.
Proof. reflexivity. Qed.

(** The line of the test table for a method that is not found. *)
Example TestServer_Method_not_found :
  outgoing (conn (WriteResponse (after_header [Arith_Foobar])
                    (Response.mk "Arith.Foobar" 1 (Some Method_not_found))
                    None).1)
  = "{" +:+ dquote +:+ "jsonrpc" +:+ dquote +:+ ":" +:+ dquote +:+ "2.0"
    +:+ dquote +:+ "," +:+ dquote +:+ "id" +:+ dquote +:+ ":"
    +:+ dquote +:+ "1" +:+ dquote +:+ ","
    +:+ dquote +:+ "error" +:+ dquote +:+ ":{"
    +:+ dquote +:+ "code" +:+ dquote +:+ ":-32601,"
    +:+ dquote +:+ "message" +:+ dquote +:+ ":"
    +:+ dquote +:+ "Method not found" +:+ dquote +:+ "}}" +:+ newline.
Proof. reflexivity. Qed.

(** ** The operations at concrete inputs *)

(** C1 at [Arith.Sub]: the first response consumes the entry of sequence
    number 1 and the second call for it fails locally. *)
Lemma WriteResponse_at_most_once_witness :
  pending (after_header [Arith_Sub_1]) !! 1 = Some (Some "1") ∧
  pending (WriteResponse (after_header [Arith_Sub_1])
             (Response.mk "Arith.Sub" 1 None) (Some (AInt 19))).1 !! 1 = None ∧
  WriteResponse
    (WriteResponse (after_header [Arith_Sub_1])
       (Response.mk "Arith.Sub" 1 None) (Some (AInt 19))).1
    (Response.mk "Arith.Sub" 1 None) (Some (AInt 19)) =
  ((WriteResponse (after_header [Arith_Sub_1])
      (Response.mk "Arith.Sub" 1 None) (Some (AInt 19))).1,
   Some (errors_New "invalid sequence number in response")).
Proof.
  split; [reflexivity |].
  apply (WriteResponse_at_most_once (after_header [Arith_Sub_1])
           (Response.mk "Arith.Sub" 1 None) (Some (AInt 19))
           (Response.mk "Arith.Sub" 1 None) (Some (AInt 19)));
    reflexivity.
Defined.

(** C2 as stated fails: the request [Notification.Update] has no
    identifier, and [WriteResponse] for its sequence number writes one
    byte, the newline, to a stream that had none. *)
Lemma WriteResponse_notification_writes_newline :
  serverRequest.Id Notification_Update = None ∧
  pending (after_header [Notification_Update]) !! 1 = Some None ∧
  outgoing (conn (after_header [Notification_Update])) = EmptyString ∧
  outgoing (conn (WriteResponse (after_header [Notification_Update])
                    (Response.mk "Notification.Update" 1 None) None).1)
    = newline ∧
  outgoing (conn (WriteResponse (after_header [Notification_Update])
                    (Response.mk "Notification.Update" 1 None) None).1)
    ≠ outgoing (conn (after_header [Notification_Update])).
Proof. repeat split; try reflexivity. vm_compute. discriminate. Qed.

(** [Notification.Update] on an open pipe: the entry is removed and the
    stream is the one the [Write] of the newline leaves. *)
Lemma WriteResponse_notification_only_delimiter_witness :
  pending (after_header [Notification_Update]) !! 1 = Some None ∧
  WriteResponse (after_header [Notification_Update])
    (Response.mk "Notification.Update" 1 None) None =
  (mkCodec (dec (after_header [Notification_Update]))
     (Write (conn (after_header [Notification_Update])) newline).1
     (req (after_header [Notification_Update]))
     (seq (after_header [Notification_Update]))
     (delete 1 (pending (after_header [Notification_Update]))),
   None).
Proof.
  split; [reflexivity |].
  apply (WriteResponse_notification_only_delimiter
           (after_header [Notification_Update])
           (Response.mk "Notification.Update" 1 None) None).
  reflexivity.
Defined.




(** C5 at the requests of the test table: [Arith.Sub] with the params
    [[42, 23]] and [Arith.Foobar] without params. *)
Lemma ReadRequestBody_outcomes_witness :
  decoded (codec_on [Arith_Sub_1]) = (Arith_Sub_1, None) ∧
  ReadRequestBody (after_header [Arith_Sub_1]) None = (None, None) ∧
  ReadRequestBody (after_header [Arith_Sub_1]) (Some (ASlice []))
    = (Some (ASlice [AInt 42; AInt 23]), None) ∧
  (ReadRequestBody (after_header [Arith_Sub_1]) (Some (AInt 0))).2
    = Some (ErrorPtr (Error.mk (-32700) "Parse error" None)) ∧
  ReadRequestBody (after_header [Arith_Foobar]) (Some (ASlice []))
    = (Some (ASlice []), Some (ErrorPtr (Error.mk (-32602) "Invalid params" None))).
Proof.
  split; [reflexivity |].
  split;
    [apply (ReadRequestBody_outcomes (codec_on [Arith_Sub_1]) Request_zero
              Arith_Sub_1 None (ASlice []) eq_refl) |].
  split;
    [apply (ReadRequestBody_outcomes (codec_on [Arith_Sub_1]) Request_zero
              Arith_Sub_1 None (ASlice []) eq_refl) with (params := "[42, 23]");
     reflexivity |].
  split;
    [apply (ReadRequestBody_outcomes (codec_on [Arith_Sub_1]) Request_zero
              Arith_Sub_1 None (AInt 0) eq_refl)
       with (params := "[42, 23]") (v' := AInt 0)
            (e := foreign "json: cannot unmarshal into int");
     reflexivity |].
  apply (ReadRequestBody_outcomes (codec_on [Arith_Foobar]) Request_zero
           Arith_Foobar None (ASlice []) eq_refl).
  reflexivity.
Defined.

(** C6 as stated fails: for [Arith.Sub] the header gets the whole string
    [Arith.Sub], not the bare name [Sub]. *)
Lemma ReadRequestHeader_keeps_qualifier :
  decoded (codec_on [Arith_Sub_1]) = (Arith_Sub_1, None) ∧
  LastIndex (serverRequest.Method Arith_Sub_1) "." = 5 ∧
  (ReadRequestHeader (codec_on [Arith_Sub_1]) Request_zero).2 = None ∧
  Request.ServiceMethod
    (ReadRequestHeader (codec_on [Arith_Sub_1]) Request_zero).1.2
    = "Arith.Sub" ∧
  spec_bare_method_name (serverRequest.Method Arith_Sub_1) = "Sub" ∧
  Request.ServiceMethod
    (ReadRequestHeader (codec_on [Arith_Sub_1]) Request_zero).1.2
    ≠ spec_bare_method_name (serverRequest.Method Arith_Sub_1).
Proof. repeat split; try reflexivity. vm_compute. discriminate. Qed.

(** [Arith.Sub] on a new codec: sequence number 1, identifier 1 pending,
    and the method string as decoded. *)
Lemma ReadRequestHeader_returns_full_method_witness :
  decoded (codec_on [Arith_Sub_1]) = (Arith_Sub_1, None) ∧
  contains_byte "." (serverRequest.Method Arith_Sub_1) ∧
  (ReadRequestHeader (codec_on [Arith_Sub_1]) Request_zero).2 = None ∧
  Request.Seq (ReadRequestHeader (codec_on [Arith_Sub_1]) Request_zero).1.2
    = (seq (codec_on [Arith_Sub_1]) + 1) mod 2 ^ 64 ∧
  seq (ReadRequestHeader (codec_on [Arith_Sub_1]) Request_zero).1.1
    = Request.Seq (ReadRequestHeader (codec_on [Arith_Sub_1]) Request_zero).1.2 ∧
  pending (ReadRequestHeader (codec_on [Arith_Sub_1]) Request_zero).1.1
    !! Request.Seq (ReadRequestHeader (codec_on [Arith_Sub_1]) Request_zero).1.2
    = Some (serverRequest.Id Arith_Sub_1) ∧
  Request.ServiceMethod
    (ReadRequestHeader (codec_on [Arith_Sub_1]) Request_zero).1.2
    = serverRequest.Method Arith_Sub_1.
Proof.
  assert (Hm : contains_byte "." (serverRequest.Method Arith_Sub_1)).
  { apply LastIndex_dot_found. reflexivity. }
  split; [reflexivity |]. split; [exact Hm |].
  exact (ReadRequestHeader_returns_full_method (codec_on [Arith_Sub_1])
           Request_zero Arith_Sub_1 eq_refl Hm).
Defined.

(** C7 as stated fails: with no error and a nil value, the envelope for
    the pending identifier 1 has neither [result] nor [error]. *)
Lemma WriteResponse_nil_result_neither_member :
  pending (after_header [Arith_Sub_1]) !! 1 = Some (Some "1") ∧
  WriteResponse (after_header [Arith_Sub_1])
    (Response.mk "Arith.Sub" 1 None) None =
  Encode (set_pending (after_header [Arith_Sub_1]) ∅)
    {| serverResponse.Version := "2.0";
       serverResponse.Id := Some "1";
       serverResponse.Result := None;
       serverResponse.Error := None |} ∧
  member_names (Conn := Pipe)
    {| serverResponse.Version := "2.0";
       serverResponse.Id := Some "1";
       serverResponse.Result := None;
       serverResponse.Error := None |} = ["jsonrpc"; "id"] ∧
  (WriteResponse (after_header [Arith_Sub_1])
     (Response.mk "Arith.Sub" 1 None) None).2 = None ∧
  outgoing (conn (WriteResponse (after_header [Arith_Sub_1])
                    (Response.mk "Arith.Sub" 1 None) None).1)
  = "{" +:+ dquote +:+ "jsonrpc" +:+ dquote +:+ ":" +:+ dquote +:+ "2.0"
    +:+ dquote +:+ "," +:+ dquote +:+ "id" +:+ dquote +:+ ":1}" +:+ newline.
Proof. repeat split; reflexivity. Qed.

(** The result 19 for [Arith.Sub]: the envelope has the members
    [jsonrpc], [id] and [result]. *)
Lemma WriteResponse_envelope_members_witness :
  pending (after_header [Arith_Sub_1]) !! 1 = Some (Some "1") ∧
  ∃ resp,
    WriteResponse (after_header [Arith_Sub_1])
      (Response.mk "Arith.Sub" 1 None) (Some (AInt 19)) =
      Encode (set_pending (after_header [Arith_Sub_1])
                (delete 1 (pending (after_header [Arith_Sub_1])))) resp ∧
    serverResponse.Version resp = "2.0" ∧
    serverResponse.Id resp = Some "1" ∧
    serverResponse.Result resp = Some (AInt 19) ∧
    serverResponse.Error resp = None ∧
    member_names (Conn := Pipe) resp = ["jsonrpc"; "id"; "result"].
Proof.
  split; [reflexivity |].
  destruct (WriteResponse_envelope_members (after_header [Arith_Sub_1])
              (Response.mk "Arith.Sub" 1 None) (Some (AInt 19)) "1" eq_refl)
    as (resp & Hw & Hv & Hid & _ & Hres & _).
  exists resp.
  destruct (Hres (AInt 19) eq_refl eq_refl) as (Hr & He & Hn).
  repeat split; assumption.
Defined.

(** C8 as stated fails: requests with the version "1.0" and with no
    version are accepted and get a sequence number. *)
Lemma ReadRequestHeader_accepts_other_version :
  serverRequest.Version Arith_Sub_old_version ≠ "2.0" ∧
  decoded (codec_on [Arith_Sub_old_version]) = (Arith_Sub_old_version, None) ∧
  ReadRequestHeader (codec_on [Arith_Sub_old_version]) Request_zero =
    (after_header [Arith_Sub_old_version], Request.mk "Arith.Sub" 1, None) ∧
  pending (after_header [Arith_Sub_old_version]) !! 1 = Some (Some "1") ∧
  serverRequest.Version Arith_Sub_no_version = EmptyString ∧
  decoded (codec_on [Arith_Sub_no_version]) = (Arith_Sub_no_version, None) ∧
  ReadRequestHeader (codec_on [Arith_Sub_no_version]) Request_zero =
    (after_header [Arith_Sub_no_version], Request.mk "Arith.Sub" 1, None).
Proof. repeat split; try reflexivity. vm_compute. discriminate. Qed.

(** [Arith.Sub] under the version 1.0: accepted, the version is kept. *)
Lemma ReadRequestHeader_accepts_iff_qualified_witness :
  decoded (codec_on [Arith_Sub_old_version]) = (Arith_Sub_old_version, None) ∧
  ((ReadRequestHeader (codec_on [Arith_Sub_old_version]) Request_zero).2 = None
   ↔ contains_byte "." (serverRequest.Method Arith_Sub_old_version)) ∧
  serverRequest.Version
    (req (ReadRequestHeader (codec_on [Arith_Sub_old_version]) Request_zero).1.1)
    = serverRequest.Version Arith_Sub_old_version.
Proof.
  split; [reflexivity |].
  exact (ReadRequestHeader_accepts_iff_qualified
           (codec_on [Arith_Sub_old_version]) Request_zero
           Arith_Sub_old_version eq_refl).
Defined.

(** C9 at the method [foobar], read after [Arith.Sub] was accepted: the
    counter stays at 1 and the table keeps its one entry. *)
Lemma ReadRequestHeader_rejected_allocates_nothing_witness :
  decoded (after_header [Arith_Sub_1; foobar_no_dot]) = (foobar_no_dot, None) ∧
  ¬ contains_byte "." (serverRequest.Method foobar_no_dot) ∧
  is_Some (ReadRequestHeader (after_header [Arith_Sub_1; foobar_no_dot])
             Request_zero).2 ∧
  seq (ReadRequestHeader (after_header [Arith_Sub_1; foobar_no_dot])
         Request_zero).1.1 = 1 ∧
  pending (ReadRequestHeader (after_header [Arith_Sub_1; foobar_no_dot])
             Request_zero).1.1
    = pending (after_header [Arith_Sub_1; foobar_no_dot]) ∧
  Request.Seq (ReadRequestHeader (after_header [Arith_Sub_1; foobar_no_dot])
                 Request_zero).1.2 = 0.
Proof.
  assert (Hm : ¬ contains_byte "." (serverRequest.Method foobar_no_dot)).
  { apply LastIndex_dot_negative. reflexivity. }
  split; [reflexivity |]. split; [exact Hm |].
  exact (ReadRequestHeader_rejected_allocates_nothing
           (after_header [Arith_Sub_1; foobar_no_dot]) Request_zero
           foobar_no_dot None eq_refl (or_intror Hm)).
Defined.

(** C10 on a pipe the peer has closed: the [Write] of the newline fails
    and [WriteResponse] returns nil all the same. *)
Lemma WriteResponse_notification_returns_nil_witness :
  pending (hang_up (after_header [Notification_Update])) !! 1 = Some None ∧
  (Write (conn (hang_up (after_header [Notification_Update]))) newline).2
    = Some (foreign "io: read/write on closed pipe") ∧
  (WriteResponse (hang_up (after_header [Notification_Update]))
     (Response.mk "Notification.Update" 1 None) None).2 = None.
Proof.
  split; [reflexivity |]. split; [reflexivity |].
  apply (WriteResponse_notification_returns_nil
           (hang_up (after_header [Notification_Update]))
           (Response.mk "Notification.Update" 1 None) None).
  reflexivity.
Defined.


(** * Further properties of the codec *)

Section Frames.
Context {Conn : Type} `{!ReadWriteCloser Conn} `{!JSON Conn}.
Implicit Types (c : serverCodec Conn) (r : Response.t) (x : option Any).

Lemma Encode_req c resp : req (Encode c resp).1 = req c.
Proof.
  unfold Encode. destruct (Marshal resp); [done |].
  by destruct (Write _ _).
Qed.

Lemma Encode_dec c resp : dec (Encode c resp).1 = dec c.
Proof.
  unfold Encode. destruct (Marshal resp); [done |].
  by destruct (Write _ _).
Qed.

Lemma WriteResponse_req c r x : req (WriteResponse c r x).1 = req c.
Proof.
  unfold WriteResponse.
  destruct (pending c !! Response.Seq r) as [[b|]|].
  - by rewrite Encode_req.
  - cbn. by destruct (Write _ _).
  - destruct (Response.Error r); [by rewrite Encode_req | done].
Qed.

Lemma WriteResponse_dec c r x : dec (WriteResponse c r x).1 = dec c.
Proof.
  unfold WriteResponse.
  destruct (pending c !! Response.Seq r) as [[b|]|].
  - by rewrite Encode_dec.
  - cbn. by destruct (Write _ _).
  - destruct (Response.Error r); [by rewrite Encode_dec | done].
Qed.

(** The envelope [WriteResponse] builds for an identifier, an error and a
    value. *)
Lemma WriteResponse_resolved c r x b :
  pending c !! Response.Seq r = Some (Some b) →
  WriteResponse c r x =
    Encode (set_pending c (delete (Response.Seq r) (pending c)))
      (match Response.Error r with
       | None => serverResponse.mk "2.0" (Some b) x None
       | Some e => serverResponse.mk "2.0" (Some b) None (Some e)
       end).
Proof. intros Hp. unfold WriteResponse. by rewrite Hp. Qed.

(** A step that does not answer [n] and does not allocate it keeps the
    entry of [n]. *)
Lemma step_keeps_entry c k n :
  0 ≤ seq c < 2 ^ 64 - 1 → n ≤ seq c → ¬ answers n k →
  pending (step c k) !! n = pending c !! n.
Proof.
  intros Hs Hn Hk. destruct k as [rh | y | r y]; cbn [step]; [| done |].
  - destruct (decoded_cases c)
      as [(rq & e & Hd) | [(rq & Hd & Hm) | (rq & Hd & Hm)]].
    + by destruct (ReadRequestHeader_decode_failure c rh rq e Hd)
        as (_ & _ & _ & -> & _).
    + by destruct (ReadRequestHeader_ill_formed c rh rq Hd Hm)
        as (_ & _ & _ & -> & _).
    + destruct (ReadRequestHeader_well_formed c rh rq Hd Hm)
        as (_ & _ & _ & -> & _).
      rewrite Z.mod_small by lia. by rewrite lookup_insert_ne by lia.
  - rewrite WriteResponse_pending. cbn in Hk.
    by rewrite lookup_delete_ne.
Qed.

Lemma contains_byte_app (ch : ascii) (a b : string) :
  contains_byte ch (a +:+ b) ↔ contains_byte ch a ∨ contains_byte ch b.
Proof.
  unfold contains_byte.
  induction a as [|a0 a IH]; cbn [String.append list_ascii_of_string In].
  - tauto.
  - change (String a0 a +:+ b) with (String a0 (a +:+ b)).
    cbn [list_ascii_of_string In]. rewrite IH. tauto.
Qed.

(** ** The table *)

(** X1. Reading the header of a request with an identifier and answering
    under the sequence number it returned encodes an envelope with exactly
    the identifier that was decoded, and leaves the table as it was before
    the header, minus whatever entry the sequence number had. *)
Theorem ReadRequestHeader_WriteResponse_round_trip c rh rq id r x :
  decoded c = (rq, None) →
  contains_byte "." (serverRequest.Method rq) →
  serverRequest.Id rq = Some id →
  Response.Seq r = Request.Seq (ReadRequestHeader c rh).1.2 →
  WriteResponse (ReadRequestHeader c rh).1.1 r x =
    Encode
      (set_pending (ReadRequestHeader c rh).1.1
         (delete (Response.Seq r) (pending c)))
      (match Response.Error r with
       | None => serverResponse.mk "2.0" (Some id) x None
       | Some e => serverResponse.mk "2.0" (Some id) None (Some e)
       end) ∧
  pending (WriteResponse (ReadRequestHeader c rh).1.1 r x).1
    = delete (Response.Seq r) (pending c) ∧
  (pending c !! Response.Seq r = None →
   pending (WriteResponse (ReadRequestHeader c rh).1.1 r x).1 = pending c).
Proof.
  intros Hd Hm Hid Hseq.
  destruct (ReadRequestHeader_well_formed c rh rq Hd Hm)
    as (_ & Hrh & _ & Hpend & _).
  rewrite Hrh in Hseq. cbn [Request.Seq] in Hseq.
  assert (Hdel : delete (Response.Seq r)
                   (pending (ReadRequestHeader c rh).1.1)
                 = delete (Response.Seq r) (pending c)).
  { rewrite Hpend, Hseq. apply delete_insert_eq. }
  split; [| split].
  - rewrite (WriteResponse_resolved _ r x id).
    + by rewrite Hdel.
    + rewrite Hpend, Hseq, Hid. apply lookup_insert_eq.
  - by rewrite WriteResponse_pending.
  - intros Hnone. rewrite WriteResponse_pending, Hdel. by apply delete_id.
Qed.

(** X2. In a run without wrap-around of the counter, a pending entry keeps
    its identifier through every call that is not a [WriteResponse] for its
    own sequence number, so that the response for it, whenever it comes, is
    encoded with that identifier. *)
Theorem run_unanswered_stays_pending ks c n b r x :
  0 ≤ seq c → seq c + Z.of_nat (length ks) < 2 ^ 64 →
  n ≤ seq c →
  pending c !! n = Some (Some b) →
  Forall (λ k, ¬ answers n k) ks →
  Response.Seq r = n →
  pending (run c ks) !! n = Some (Some b) ∧
  WriteResponse (run c ks) r x =
    Encode (set_pending (run c ks) (delete n (pending (run c ks))))
      (match Response.Error r with
       | None => serverResponse.mk "2.0" (Some b) x None
       | Some e => serverResponse.mk "2.0" (Some b) None (Some e)
       end).
Proof.
  intros H0 Hlen Hn Hp Hks Hseq.
  assert (Hrun : pending (run c ks) !! n = Some (Some b)).
  { clear Hseq. revert c H0 Hlen Hn Hp.
    induction Hks as [|k ks Hk Hks IH]; intros c H0 Hlen Hn Hp; [done |].
    cbn [run fold_left length] in *.
    assert (Hc : 0 ≤ seq c < 2 ^ 64 - 1) by lia.
    pose proof (step_seq c k Hc) as Hstep.
    apply IH; [lia | lia | lia |].
    by rewrite step_keeps_entry. }
  split; [done |].
  subst n. by rewrite (WriteResponse_resolved _ r x b).
Qed.

(** X3. On a codec reached from a new one in fewer than 2^64 - 1 calls, an
    accepted request gets the counter plus one, a number with no pending
    entry, and every entry of the table is kept: no pending identifier is
    overwritten. *)
Theorem ReadRequestHeader_allocates_fresh (cn : Conn) ks rh rq :
  Z.of_nat (length ks) + 1 < 2 ^ 64 →
  decoded (run (NewServerCodec cn) ks) = (rq, None) →
  contains_byte "." (serverRequest.Method rq) →
  Request.Seq (ReadRequestHeader (run (NewServerCodec cn) ks) rh).1.2
    = seq (run (NewServerCodec cn) ks) + 1 ∧
  pending (run (NewServerCodec cn) ks)
    !! Request.Seq (ReadRequestHeader (run (NewServerCodec cn) ks) rh).1.2
    = None ∧
  ∀ m v, pending (run (NewServerCodec cn) ks) !! m = Some v →
         pending (ReadRequestHeader (run (NewServerCodec cn) ks) rh).1.1 !! m
           = Some v.
Proof.
  intros Hlen Hd Hm.
  destruct (run_invariant ks (NewServerCodec cn)) as [Hs Ha];
    [cbn; lia | cbn; lia | apply NewServerCodec_allocated |].
  cbn [seq NewServerCodec] in Hs.
  set (c := run (NewServerCodec cn) ks) in *.
  destruct (ReadRequestHeader_well_formed c rh rq Hd Hm)
    as (_ & -> & _ & -> & _).
  cbn [Request.Seq]. rewrite Z.mod_small by lia.
  assert (Hfresh : pending c !! (seq c + 1) = None).
  { destruct (pending c !! (seq c + 1)) eqn:Hp; [| done].
    specialize (Ha (seq c + 1) ltac:(by rewrite Hp)). lia. }
  split; [done |]. split; [done |].
  intros m v Hv. rewrite lookup_insert_ne; [done |].
  intros <-. congruence.
Qed.

(** X4. The sequence number of an accepted request is a [uint64]; when
    the counter is at its maximum 2^64 - 1 it wraps to 0, and the entry of 0,
    whatever it was, now holds the identifier of the new request. *)
Theorem ReadRequestHeader_wraps c rh rq :
  decoded c = (rq, None) →
  contains_byte "." (serverRequest.Method rq) →
  0 ≤ Request.Seq (ReadRequestHeader c rh).1.2 < 2 ^ 64 ∧
  (seq c = 2 ^ 64 - 1 →
   Request.Seq (ReadRequestHeader c rh).1.2 = 0 ∧
   seq (ReadRequestHeader c rh).1.1 = 0 ∧
   pending (ReadRequestHeader c rh).1.1
     = <[0 := serverRequest.Id rq]> (pending c)).
Proof.
  intros Hd Hm.
  destruct (ReadRequestHeader_well_formed c rh rq Hd Hm)
    as (_ & -> & -> & -> & _).
  cbn [Request.Seq]. split.
  - apply Z.mod_pos_bound. lia.
  - intros ->. replace (2 ^ 64 - 1 + 1) with (2 ^ 64) by lia.
    by rewrite Z_mod_same_full.
Qed.

(** X5. [reset] makes the header read independent of the work space the
    previous call left: two codecs that differ only in their [req] read
    the same header and leave the same codec, so the parameters that
    [ReadRequestBody] sees are those of this request. *)
Theorem ReadRequestHeader_ignores_workspace
    (d : Decoder) (cn : Conn) (rq1 rq2 : serverRequest.t) (s : Z)
    (p : gmap Z (option RawMessage)) (rh : Request.t) (x : option Any) :
  ReadRequestHeader (mkCodec d cn rq1 s p) rh
    = ReadRequestHeader (mkCodec d cn rq2 s p) rh ∧
  ReadRequestBody (ReadRequestHeader (mkCodec d cn rq1 s p) rh).1.1 x
    = ReadRequestBody (ReadRequestHeader (mkCodec d cn rq2 s p) rh).1.1 x.
Proof. split; reflexivity. Qed.

(** X6. [WriteResponse] changes nothing of the codec but the stream and
    the entry of its own sequence number: the decoder, the work space and
    the counter are kept, every other entry is kept, and what
    [ReadRequestBody] returns is not affected. *)
Theorem WriteResponse_frame c r x y :
  dec (WriteResponse c r x).1 = dec c ∧
  req (WriteResponse c r x).1 = req c ∧
  seq (WriteResponse c r x).1 = seq c ∧
  (∀ m, m ≠ Response.Seq r →
        pending (WriteResponse c r x).1 !! m = pending c !! m) ∧
  ReadRequestBody (WriteResponse c r x).1 y = ReadRequestBody c y.
Proof.
  split; [apply WriteResponse_dec |].
  split; [apply WriteResponse_req |].
  split; [apply WriteResponse_seq |].
  split.
  - intros m Hm. rewrite WriteResponse_pending. by rewrite lookup_delete_ne.
  - unfold ReadRequestBody. by rewrite WriteResponse_req.
Qed.

(** X7. [WriteResponse] never adds an entry: the table shrinks by exactly
    one entry when the sequence number was pending and is unchanged when
    it was not. *)
Theorem WriteResponse_table_size c r x :
  (is_Some (pending c !! Response.Seq r) →
   size (pending c) = S (size (pending (WriteResponse c r x).1))) ∧
  (pending c !! Response.Seq r = None →
   pending (WriteResponse c r x).1 = pending c).
Proof.
  rewrite WriteResponse_pending. split.
  - intros [b Hb]. rewrite map_size_delete_Some by eauto.
    assert (size (pending c) ≠ 0%nat); [| lia].
    intros Hz. apply map_size_empty_inv in Hz. rewrite Hz in Hb.
    by rewrite lookup_empty in Hb.
  - apply delete_id.
Qed.
End Frames.

Section Responses.
Context {Conn : Type} `{!ReadWriteCloser Conn} `{!JSON Conn}.
Implicit Types (c : serverCodec Conn) (r : Response.t) (x : option Any).

(** ** Writing a response, continued *)

(** X8. Once a sequence number was answered, whether the stream took the
    bytes or not, a further response for it that carries an error is
    encoded with identifier [null], not with the identifier of the
    request. *)
Theorem WriteResponse_second_error_to_null c r x r2 x2 e2 :
  Response.Seq r2 = Response.Seq r →
  Response.Error r2 = Some e2 →
  WriteResponse (WriteResponse c r x).1 r2 x2 =
    Encode (WriteResponse c r x).1
      {| serverResponse.Version := "2.0";
         serverResponse.Id := Some "null";
         serverResponse.Result := None;
         serverResponse.Error := Some e2 |}.
Proof.
  intros Hseq Herr.
  assert (Hp : pending (WriteResponse c r x).1 !! Response.Seq r = None)
    by (rewrite WriteResponse_pending; apply lookup_delete_eq).
  generalize dependent (WriteResponse c r x).1. intros c1 Hp.
  unfold WriteResponse. by rewrite Hseq, Hp, Herr.
Qed.

(** X9. For a notification neither the error nor the value of the
    response is looked at: whatever the handler returned, the call does
    what it does for a plain success, and no error envelope is encoded. *)
Theorem WriteResponse_notification_ignores_error c r x r' x' :
  pending c !! Response.Seq r = Some None →
  Response.Seq r' = Response.Seq r →
  WriteResponse c r' x' = WriteResponse c r x.
Proof.
  intros Hp Hseq. unfold WriteResponse. by rewrite Hseq, Hp.
Qed.

(** X10. When the response carries an error, the value [x] plays no part:
    the same bytes go out and the same codec is left for every value. *)
Theorem WriteResponse_error_ignores_value c r x x' e :
  Response.Error r = Some e →
  WriteResponse c r x = WriteResponse c r x'.
Proof.
  intros He. unfold WriteResponse. rewrite He.
  by destruct (pending c !! Response.Seq r) as [[b|]|].
Qed.

(** X11. The response for a pending identifier removes the entry before
    it encodes: when the marshalling or the write fails, the error of the
    encoder is returned, and the entry is gone all the same. *)
Theorem WriteResponse_consumes_entry_on_failure c r x b err :
  pending c !! Response.Seq r = Some (Some b) →
  (Encode (set_pending c (delete (Response.Seq r) (pending c)))
     (match Response.Error r with
      | None => serverResponse.mk "2.0" (Some b) x None
      | Some e => serverResponse.mk "2.0" (Some b) None (Some e)
      end)).2 = Some err →
  (WriteResponse c r x).2 = Some err ∧
  pending (WriteResponse c r x).1 !! Response.Seq r = None.
Proof.
  intros Hp Henc. split.
  - by rewrite (WriteResponse_resolved c r x b Hp).
  - rewrite WriteResponse_pending. apply lookup_delete_eq.
Qed.

(** ** Reading the parameters, continued *)

(** X12. [ReadRequestBody] returns nil exactly when there is no
    destination, or the request has params and unmarshalling them into
    the destination succeeds; an error it returns is one of the two
    [*Error] values -32602 "Invalid params" and -32700 "Parse error",
    without data: the error of [json.Unmarshal] is never passed on. *)
Theorem ReadRequestBody_result c x :
  ((ReadRequestBody c x).2 = None ↔
   x = None ∨
   ∃ v params, x = Some v ∧ serverRequest.Params (req c) = Some params
               ∧ (Unmarshal params v).2 = None) ∧
  ((ReadRequestBody c x).2 = None ∨
   (ReadRequestBody c x).2
     = Some (ErrorPtr (Error.mk (-32602) "Invalid params" None)) ∨
   (ReadRequestBody c x).2
     = Some (ErrorPtr (Error.mk (-32700) "Parse error" None))).
Proof.
  unfold ReadRequestBody. destruct x as [v|].
  - destruct (serverRequest.Params (req c)) as [params|] eqn:Hparams.
    + destruct (Unmarshal params v) as [v' [e|]] eqn:Hu; cbn.
      * split; [| by auto]. split; [discriminate |].
        intros [[=] | (v0 & p0 & [= <-] & [= <-] & Hnone)].
        rewrite Hu in Hnone. discriminate.
      * split; [| by auto]. split; [| done]. intros _. right.
        exists v, params. by rewrite Hu.
    + cbn. split; [| by auto]. split; [discriminate |].
      intros [[=] | (v0 & p0 & _ & [=] & _)].
  - cbn. split; [| by auto]. split; [by auto | done].
Qed.

(** ** A new codec *)

(** X13. On the codec [NewServerCodec] returns nothing is pending and no
    request was read: a response without error is refused with the local
    error for every sequence number, a response with an error goes out
    with identifier [null], and [ReadRequestBody] into a destination
    returns -32602 "Invalid params". *)
Theorem NewServerCodec_nothing_pending (cn : Conn) r x v :
  (Response.Error r = None →
   WriteResponse (NewServerCodec cn) r x =
     (NewServerCodec cn,
      Some (errors_New "invalid sequence number in response"))) ∧
  (∀ e, Response.Error r = Some e →
   WriteResponse (NewServerCodec cn) r x =
     Encode (NewServerCodec cn)
       {| serverResponse.Version := "2.0";
          serverResponse.Id := Some "null";
          serverResponse.Result := None;
          serverResponse.Error := Some e |}) ∧
  ReadRequestBody (NewServerCodec cn) (Some v) =
    (Some v, Some (ErrorPtr (Error.mk (-32602) "Invalid params" None))).
Proof.
  unfold WriteResponse. cbn [pending NewServerCodec]. rewrite lookup_empty.
  split; [by intros -> |]. split; [by intros e -> | done].
Qed.

(** ** Reading a request header, continued *)

(** X14. A failure of the decoder is returned as it is and the header is
    not touched; a method without a dot is rejected after the header
    received it, so the header then holds the rejected method string and
    its old sequence number; in both cases the work space holds what the
    decoder left, identifier included. *)
Theorem ReadRequestHeader_failure_header c rh rq err :
  decoded c = (rq, err) →
  (∀ e, err = Some e →
     (ReadRequestHeader c rh).2 = Some e ∧
     (ReadRequestHeader c rh).1.2 = rh ∧
     req (ReadRequestHeader c rh).1.1 = rq) ∧
  (err = None → ¬ contains_byte "." (serverRequest.Method rq) →
     (ReadRequestHeader c rh).1.2
       = Request.mk (serverRequest.Method rq) (Request.Seq rh) ∧
     req (ReadRequestHeader c rh).1.1 = rq).
Proof.
  intros Hd. split.
  - intros e ->.
    by destruct (ReadRequestHeader_decode_failure c rh rq e Hd)
      as (-> & -> & _ & _ & ->).
  - intros -> Hm.
    by destruct (ReadRequestHeader_ill_formed c rh rq Hd Hm)
      as (_ & -> & _ & _ & ->).
Qed.

(** X15. After an accepted request the work space keeps the version, the
    method and the params as decoded and its identifier is nil: the
    identifier lives in the table only. *)
Theorem ReadRequestHeader_moves_identifier c rh rq :
  decoded c = (rq, None) →
  contains_byte "." (serverRequest.Method rq) →
  serverRequest.Id (req (ReadRequestHeader c rh).1.1) = None ∧
  serverRequest.Version (req (ReadRequestHeader c rh).1.1)
    = serverRequest.Version rq ∧
  serverRequest.Method (req (ReadRequestHeader c rh).1.1)
    = serverRequest.Method rq ∧
  serverRequest.Params (req (ReadRequestHeader c rh).1.1)
    = serverRequest.Params rq ∧
  pending (ReadRequestHeader c rh).1.1 !! seq (ReadRequestHeader c rh).1.1
    = Some (serverRequest.Id rq).
Proof.
  intros Hd Hm.
  destruct (ReadRequestHeader_well_formed c rh rq Hd Hm)
    as (_ & _ & -> & -> & ->).
  by rewrite lookup_insert_eq.
Qed.

(** X16. The only test on the method is the presence of a dot: a method
    made of any two strings around a dot is accepted, also when the
    service part, the method part or both are empty, and the empty method
    is rejected. *)
Theorem ReadRequestHeader_accepts_any_dotted c rh rq a b :
  decoded c = (rq, None) →
  (serverRequest.Method rq = a +:+ "." +:+ b →
   (ReadRequestHeader c rh).2 = None ∧
   Request.ServiceMethod (ReadRequestHeader c rh).1.2 = a +:+ "." +:+ b) ∧
  (serverRequest.Method rq = EmptyString →
   (ReadRequestHeader c rh).2 = Some (ErrorPtr (ill_formed EmptyString))).
Proof.
  intros Hd. split.
  - intros Hmeth.
    assert (Hm : contains_byte "." (serverRequest.Method rq)).
    { rewrite Hmeth. apply contains_byte_app. right.
      apply contains_byte_app. left. by left. }
    destruct (ReadRequestHeader_well_formed c rh rq Hd Hm) as (-> & -> & _).
    by rewrite Hmeth.
  - intros Hmeth.
    assert (Hm : ¬ contains_byte "." (serverRequest.Method rq)).
    { rewrite Hmeth. intros []. }
    destruct (ReadRequestHeader_ill_formed c rh rq Hd Hm) as (-> & _).
    by rewrite Hmeth.
Qed.

(** ** Closing *)

(** X17. [Close] returns the error of the connection and leaves the
    counter and the table as they are: a response written after it is
    still resolved to the identifier of its request, and consumes its
    entry. *)
Theorem Close_codec_keeps_pending c r x b :
  pending c !! Response.Seq r = Some (Some b) →
  (Close_codec c).2 = (Close (conn c)).2 ∧
  seq (Close_codec c).1 = seq c ∧
  pending (Close_codec c).1 = pending c ∧
  WriteResponse (Close_codec c).1 r x =
    Encode (set_pending (Close_codec c).1 (delete (Response.Seq r) (pending c)))
      (match Response.Error r with
       | None => serverResponse.mk "2.0" (Some b) x None
       | Some e => serverResponse.mk "2.0" (Some b) None (Some e)
       end).
Proof.
  intros Hp.
  assert (Hc : seq (Close_codec c).1 = seq c
               ∧ pending (Close_codec c).1 = pending c
               ∧ (Close_codec c).2 = (Close (conn c)).2).
  { unfold Close_codec. by destruct (Close (conn c)). }
  destruct Hc as (Hs & Hpd & He).
  split; [done |]. split; [done |]. split; [done |].
  rewrite (WriteResponse_resolved _ r x b) by (by rewrite Hpd).
  by rewrite Hpd.
Qed.

(** ** Runs from a new codec *)

(** X18. In a run of fewer than 2^64 calls from a new codec the counter is
    at most the number of calls and every pending sequence number lies
    between 1 and the counter; 0 is never pending. *)
Theorem run_from_new_allocated (cn : Conn) ks :
  Z.of_nat (length ks) < 2 ^ 64 →
  0 ≤ seq (run (NewServerCodec cn) ks) ≤ Z.of_nat (length ks) ∧
  (∀ n, is_Some (pending (run (NewServerCodec cn) ks) !! n) →
        1 ≤ n ≤ seq (run (NewServerCodec cn) ks)) ∧
  pending (run (NewServerCodec cn) ks) !! 0 = None.
Proof.
  intros Hlen.
  destruct (run_invariant ks (NewServerCodec cn)) as [Hs Ha];
    [cbn; lia | cbn; lia | apply NewServerCodec_allocated |].
  cbn [seq NewServerCodec] in Hs.
  split; [lia |]. split; [exact Ha |].
  by apply run_pending_zero.
Qed.
End Responses.

(** ** The text of the errors of the codec *)

Section ErrorText.
Context {Conn : Type} `{!ReadWriteCloser Conn} `{!JSON Conn}.

(** X19. The text of the error [ReadRequestHeader] returns for a method
    without a dot is the code, the message and the diagnostic with the
    method string at its end. *)
Theorem ReadRequestHeader_error_text (c : serverCodec Conn) rh rq :
  decoded c = (rq, None) →
  ¬ contains_byte "." (serverRequest.Method rq) →
  ∃ e, (ReadRequestHeader c rh).2 = Some (ErrorPtr e) ∧
       Error_Error e =
         "-32600 - Invalid Request: rpc: service/method request ill-formed: "
         +:+ serverRequest.Method rq.
Proof.
  intros Hd Hm.
  destruct (ReadRequestHeader_ill_formed c rh rq Hd Hm) as (-> & _).
  eexists. split; reflexivity.
Qed.

(** X20. The errors of [ReadRequestBody] have no data, and their text
    ends with [<nil>]. *)
Theorem ReadRequestBody_error_text (c : serverCodec Conn) x err :
  (ReadRequestBody c x).2 = Some err →
  ∃ e, err = ErrorPtr e ∧
       (Error_Error e = "-32602 - Invalid params: <nil>" ∨
        Error_Error e = "-32700 - Parse error: <nil>").
Proof.
  unfold ReadRequestBody. destruct x as [v|]; [| discriminate].
  destruct (serverRequest.Params (req c)) as [params|].
  - destruct (Unmarshal params v) as [v' [e|]]; cbn; [| discriminate].
    intros [= <-]. eexists. split; [reflexivity | by right].
  - cbn. intros [= <-]. eexists. split; [reflexivity | by left].
Qed.
End ErrorText.

(** ** The further properties at concrete inputs *)

(** X1 at [Arith.Sub] on a new codec: the envelope carries the identifier
    1 and the table is empty again. *)
Lemma ReadRequestHeader_WriteResponse_round_trip_witness :
  decoded (codec_on [Arith_Sub_1]) = (Arith_Sub_1, None) ∧
  serverRequest.Id Arith_Sub_1 = Some "1" ∧
  Request.Seq (ReadRequestHeader (codec_on [Arith_Sub_1]) Request_zero).1.2
    = 1 ∧
  WriteResponse (after_header [Arith_Sub_1])
    (Response.mk "Arith.Sub" 1 None) (Some (AInt 19)) =
  Encode (set_pending (after_header [Arith_Sub_1])
            (delete 1 (pending (codec_on [Arith_Sub_1]))))
    (serverResponse.mk "2.0" (Some "1") (Some (AInt 19)) None) ∧
  pending (WriteResponse (after_header [Arith_Sub_1])
             (Response.mk "Arith.Sub" 1 None) (Some (AInt 19))).1
    = pending (codec_on [Arith_Sub_1]).
Proof.
  assert (Hm : contains_byte "." (serverRequest.Method Arith_Sub_1)).
  { apply LastIndex_dot_found. reflexivity. }
  destruct (ReadRequestHeader_WriteResponse_round_trip
              (codec_on [Arith_Sub_1]) Request_zero Arith_Sub_1 "1"
              (Response.mk "Arith.Sub" 1 None) (Some (AInt 19))
              eq_refl Hm eq_refl eq_refl) as (Hw & _ & Hp).
  split; [reflexivity |]. split; [reflexivity |]. split; [reflexivity |].
  split; [exact Hw | exact (Hp eq_refl)].
Defined.

(** X2: with [Arith.Sub] 1 pending, a second request is read and answered
    first; the entry of 1 still holds the identifier 1. *)
Lemma run_unanswered_stays_pending_witness :
  pending (after_header [Arith_Sub_1; Arith_Sub_2]) !! 1 = Some (Some "1") ∧
  pending
    (run (after_header [Arith_Sub_1; Arith_Sub_2])
       [CallReadRequestHeader Request_zero;
        CallWriteResponse (Response.mk "Arith.Sub" 2 None) (Some (AInt (-19)))])
    !! 1 = Some (Some "1").
Proof.
  split; [reflexivity |].
  apply (run_unanswered_stays_pending
           [CallReadRequestHeader Request_zero;
            CallWriteResponse (Response.mk "Arith.Sub" 2 None)
              (Some (AInt (-19)))]
           (after_header [Arith_Sub_1; Arith_Sub_2]) 1 "1"
           (Response.mk "Arith.Sub" 1 None) (Some (AInt 19))).
  - vm_compute. discriminate.
  - vm_compute. reflexivity.
  - vm_compute. discriminate.
  - reflexivity.
  - repeat constructor.
    + intros [].
    + cbn. discriminate.
  - reflexivity.
Defined.

(** X3: the second request on a codec that has read the first gets the
    number 2, which was free. *)
Lemma ReadRequestHeader_allocates_fresh_witness :
  decoded (run (NewServerCodec (pipe_with [Arith_Sub_1; Arith_Sub_2]))
             [CallReadRequestHeader Request_zero]) = (Arith_Sub_2, None) ∧
  Request.Seq
    (ReadRequestHeader
       (run (NewServerCodec (pipe_with [Arith_Sub_1; Arith_Sub_2]))
          [CallReadRequestHeader Request_zero]) Request_zero).1.2
    = seq (run (NewServerCodec (pipe_with [Arith_Sub_1; Arith_Sub_2]))
             [CallReadRequestHeader Request_zero]) + 1 ∧
  pending (run (NewServerCodec (pipe_with [Arith_Sub_1; Arith_Sub_2]))
             [CallReadRequestHeader Request_zero])
    !! Request.Seq
         (ReadRequestHeader
            (run (NewServerCodec (pipe_with [Arith_Sub_1; Arith_Sub_2]))
               [CallReadRequestHeader Request_zero]) Request_zero).1.2
    = None.
Proof.
  assert (Hm : contains_byte "." (serverRequest.Method Arith_Sub_2)).
  { apply LastIndex_dot_found. reflexivity. }
  split; [reflexivity |].
  destruct (ReadRequestHeader_allocates_fresh
              (pipe_with [Arith_Sub_1; Arith_Sub_2])
              [CallReadRequestHeader Request_zero] Request_zero Arith_Sub_2)
    as (Hs & Hf & _).
  - vm_compute. reflexivity.
  - reflexivity.
  - exact Hm.
  - split; [exact Hs | exact Hf].
Defined.

(** X4: the counter is 2^64 - 1 and 0 holds the identifier 1; the request
    with identifier 2 takes the sequence number 0 and its entry. *)
Lemma ReadRequestHeader_wraps_witness :
  decoded codec_at_max = (Arith_Sub_2, None) ∧
  Request.Seq (ReadRequestHeader codec_at_max Request_zero).1.2 = 0 ∧
  pending (ReadRequestHeader codec_at_max Request_zero).1.1 !! 0
    = Some (Some "2").
Proof.
  assert (Hm : contains_byte "." (serverRequest.Method Arith_Sub_2)).
  { apply LastIndex_dot_found. reflexivity. }
  destruct (ReadRequestHeader_wraps codec_at_max Request_zero Arith_Sub_2
              eq_refl Hm) as (_ & Hw).
  destruct (Hw eq_refl) as (Hs & _ & Hp).
  split; [reflexivity |]. split; [exact Hs |].
  rewrite Hp. reflexivity.
Defined.

(** X8: the first response for [Arith.Sub] 1 went out; a second one with
    an error is encoded under [null]. *)
Lemma WriteResponse_second_error_to_null_witness :
  WriteResponse
    (WriteResponse (after_header [Arith_Sub_1])
       (Response.mk "Arith.Sub" 1 None) (Some (AInt 19))).1
    (Response.mk "Arith.Sub" 1 (Some Method_not_found)) None =
  Encode
    (WriteResponse (after_header [Arith_Sub_1])
       (Response.mk "Arith.Sub" 1 None) (Some (AInt 19))).1
    {| serverResponse.Version := "2.0";
       serverResponse.Id := Some "null";
       serverResponse.Result := None;
       serverResponse.Error := Some Method_not_found |}.
Proof.
  apply (WriteResponse_second_error_to_null (after_header [Arith_Sub_1])
           (Response.mk "Arith.Sub" 1 None) (Some (AInt 19))
           (Response.mk "Arith.Sub" 1 (Some Method_not_found)) None
           Method_not_found);
    reflexivity.
Defined.

(** X9: a notification whose handler failed is answered like one that
    succeeded. *)
Lemma WriteResponse_notification_ignores_error_witness :
  pending (after_header [Notification_Update]) !! 1 = Some None ∧
  WriteResponse (after_header [Notification_Update])
    (Response.mk "Notification.Update" 1 (Some Method_not_found)) None =
  WriteResponse (after_header [Notification_Update])
    (Response.mk "Notification.Update" 1 None) (Some (AInt 0)).
Proof.
  split; [reflexivity |].
  apply (WriteResponse_notification_ignores_error
           (after_header [Notification_Update])
           (Response.mk "Notification.Update" 1 None) (Some (AInt 0))
           (Response.mk "Notification.Update" 1 (Some Method_not_found)) None);
    reflexivity.
Defined.

(** X10: the error response for [Arith.Foobar] with and without a value. *)
Lemma WriteResponse_error_ignores_value_witness :
  WriteResponse (after_header [Arith_Foobar])
    (Response.mk "Arith.Foobar" 1 (Some Method_not_found)) None =
  WriteResponse (after_header [Arith_Foobar])
    (Response.mk "Arith.Foobar" 1 (Some Method_not_found)) (Some (AInt 19)).
Proof.
  apply (WriteResponse_error_ignores_value (after_header [Arith_Foobar])
           (Response.mk "Arith.Foobar" 1 (Some Method_not_found))
           None (Some (AInt 19)) Method_not_found).
  reflexivity.
Defined.

(** X11: the peer hangs up before the response for [Arith.Sub] 1; the
    write fails and the entry is consumed. *)
Lemma WriteResponse_consumes_entry_on_failure_witness :
  pending (hang_up (after_header [Arith_Sub_1])) !! 1 = Some (Some "1") ∧
  (WriteResponse (hang_up (after_header [Arith_Sub_1]))
     (Response.mk "Arith.Sub" 1 None) (Some (AInt 19))).2
    = Some (foreign "io: read/write on closed pipe") ∧
  pending (WriteResponse (hang_up (after_header [Arith_Sub_1]))
             (Response.mk "Arith.Sub" 1 None) (Some (AInt 19))).1 !! 1 = None.
Proof.
  split; [reflexivity |].
  apply (WriteResponse_consumes_entry_on_failure
           (hang_up (after_header [Arith_Sub_1]))
           (Response.mk "Arith.Sub" 1 None) (Some (AInt 19)) "1"
           (foreign "io: read/write on closed pipe"));
    reflexivity.
Defined.

(** X14: nothing to read on the pipe, and the method [foobar]. *)
Lemma ReadRequestHeader_failure_header_witness :
  decoded (codec_on []) =
    (serverRequest.mk EmptyString EmptyString None None,
     Some (foreign "EOF")) ∧
  (ReadRequestHeader (codec_on []) Request_zero).2 = Some (foreign "EOF") ∧
  (ReadRequestHeader (codec_on []) Request_zero).1.2 = Request_zero ∧
  decoded (codec_on [foobar_no_dot]) = (foobar_no_dot, None) ∧
  (ReadRequestHeader (codec_on [foobar_no_dot]) Request_zero).1.2
    = Request.mk "foobar" 0 ∧
  serverRequest.Id
    (req (ReadRequestHeader (codec_on [foobar_no_dot]) Request_zero).1.1)
    = Some "7".
Proof.
  assert (Hm : ¬ contains_byte "." (serverRequest.Method foobar_no_dot)).
  { apply LastIndex_dot_negative. reflexivity. }
  destruct (ReadRequestHeader_failure_header (codec_on []) Request_zero
              (serverRequest.mk EmptyString EmptyString None None)
              (Some (foreign "EOF")) eq_refl) as (Hfail & _).
  destruct (Hfail (foreign "EOF") eq_refl) as (He & Hh & _).
  destruct (ReadRequestHeader_failure_header (codec_on [foobar_no_dot])
              Request_zero foobar_no_dot None eq_refl) as (_ & Hrej).
  destruct (Hrej eq_refl Hm) as (Hh' & Hreq).
  split; [reflexivity |]. split; [exact He |]. split; [exact Hh |].
  split; [reflexivity |]. split; [exact Hh' |].
  rewrite Hreq. reflexivity.
Defined.

(** X15 at [Arith.Sub]. *)
Lemma ReadRequestHeader_moves_identifier_witness :
  decoded (codec_on [Arith_Sub_1]) = (Arith_Sub_1, None) ∧
  serverRequest.Id (req (after_header [Arith_Sub_1])) = None ∧
  serverRequest.Params (req (after_header [Arith_Sub_1])) = Some "[42, 23]" ∧
  pending (after_header [Arith_Sub_1]) !! seq (after_header [Arith_Sub_1])
    = Some (Some "1").
Proof.
  assert (Hm : contains_byte "." (serverRequest.Method Arith_Sub_1)).
  { apply LastIndex_dot_found. reflexivity. }
  destruct (ReadRequestHeader_moves_identifier (codec_on [Arith_Sub_1])
              Request_zero Arith_Sub_1 eq_refl Hm)
    as (Hid & _ & _ & Hpar & Hpend).
  split; [reflexivity |]. split; [exact Hid |].
  split; [exact Hpar | exact Hpend].
Defined.

(** X16: the method that is a single dot is accepted. *)
Lemma ReadRequestHeader_accepts_any_dotted_witness :
  decoded (codec_on [dot_only]) = (dot_only, None) ∧
  serverRequest.Method dot_only = EmptyString +:+ "." +:+ EmptyString ∧
  (ReadRequestHeader (codec_on [dot_only]) Request_zero).2 = None ∧
  Request.ServiceMethod
    (ReadRequestHeader (codec_on [dot_only]) Request_zero).1.2
    = EmptyString +:+ "." +:+ EmptyString.
Proof.
  destruct (ReadRequestHeader_accepts_any_dotted (codec_on [dot_only])
              Request_zero dot_only EmptyString EmptyString eq_refl)
    as (Hacc & _).
  split; [reflexivity |]. split; [reflexivity |].
  exact (Hacc eq_refl).
Defined.

(** X17: [Arith.Sub] 1 is pending when the pipe is closed. *)
Lemma Close_codec_keeps_pending_witness :
  pending (after_header [Arith_Sub_1]) !! 1 = Some (Some "1") ∧
  pending (Close_codec (after_header [Arith_Sub_1])).1
    = pending (after_header [Arith_Sub_1]) ∧
  WriteResponse (Close_codec (after_header [Arith_Sub_1])).1
    (Response.mk "Arith.Sub" 1 None) (Some (AInt 19)) =
  Encode
    (set_pending (Close_codec (after_header [Arith_Sub_1])).1
       (delete 1 (pending (after_header [Arith_Sub_1]))))
    (serverResponse.mk "2.0" (Some "1") (Some (AInt 19)) None).
Proof.
  destruct (Close_codec_keeps_pending (after_header [Arith_Sub_1])
              (Response.mk "Arith.Sub" 1 None) (Some (AInt 19)) "1" eq_refl)
    as (_ & _ & Hp & Hw).
  split; [reflexivity |]. split; [exact Hp | exact Hw].
Defined.

(** X18: two headers and one response on a new codec. *)
Lemma run_from_new_allocated_witness :
  0 ≤ seq (run (NewServerCodec (pipe_with [Arith_Sub_1; Arith_Sub_2]))
             [CallReadRequestHeader Request_zero;
              CallReadRequestHeader Request_zero;
              CallWriteResponse (Response.mk "Arith.Sub" 1 None)
                (Some (AInt 19))]) ≤ 3 ∧
  pending (run (NewServerCodec (pipe_with [Arith_Sub_1; Arith_Sub_2]))
             [CallReadRequestHeader Request_zero;
              CallReadRequestHeader Request_zero;
              CallWriteResponse (Response.mk "Arith.Sub" 1 None)
                (Some (AInt 19))]) !! 0 = None.
Proof.
  destruct (run_from_new_allocated (pipe_with [Arith_Sub_1; Arith_Sub_2])
              [CallReadRequestHeader Request_zero;
               CallReadRequestHeader Request_zero;
               CallWriteResponse (Response.mk "Arith.Sub" 1 None)
                 (Some (AInt 19))])
    as (Hs & _ & Hz).
  - vm_compute. reflexivity.
  - split; [exact Hs | exact Hz].
Defined.

(** X19 at the method [foobar]. *)
Lemma ReadRequestHeader_error_text_witness :
  decoded (codec_on [foobar_no_dot]) = (foobar_no_dot, None) ∧
  ∃ e,
    (ReadRequestHeader (codec_on [foobar_no_dot]) Request_zero).2
      = Some (ErrorPtr e) ∧
    Error_Error e =
      "-32600 - Invalid Request: rpc: service/method request ill-formed: "
      +:+ serverRequest.Method foobar_no_dot.
Proof.
  assert (Hm : ¬ contains_byte "." (serverRequest.Method foobar_no_dot)).
  { apply LastIndex_dot_negative. reflexivity. }
  split; [reflexivity |].
  exact (ReadRequestHeader_error_text (codec_on [foobar_no_dot])
           Request_zero foobar_no_dot eq_refl Hm).
Defined.

(** X20: [Arith.Foobar] has no params. *)
Lemma ReadRequestBody_error_text_witness :
  (ReadRequestBody (after_header [Arith_Foobar]) (Some (ASlice []))).2
    = Some (ErrorPtr (Error.mk (-32602) "Invalid params" None)) ∧
  ∃ e,
    ErrorPtr (Error.mk (-32602) "Invalid params" None) = ErrorPtr e ∧
    (Error_Error e = "-32602 - Invalid params: <nil>" ∨
     Error_Error e = "-32700 - Parse error: <nil>").
Proof.
  split; [reflexivity |].
  exact (ReadRequestBody_error_text (after_header [Arith_Foobar])
           (Some (ASlice []))
           (ErrorPtr (Error.mk (-32602) "Invalid params" None)) eq_refl).
Defined.

(** X21: [Arith.Sub] 1 is read, answered, and answered again after one
    more call. *)
Lemma WriteResponse_once_per_run_witness :
  is_Some (pending (run (NewServerCodec (pipe_with [Arith_Sub_1]))
                      [CallReadRequestHeader Request_zero]) !! 1) ∧
  WriteResponse
    (run (NewServerCodec (pipe_with [Arith_Sub_1]))
       ([CallReadRequestHeader Request_zero]
        ++ CallWriteResponse (Response.mk "Arith.Sub" 1 None) (Some (AInt 19))
           :: [CallReadRequestBody None]))
    (Response.mk "Arith.Sub" 1 None) (Some (AInt 19)) =
  (run (NewServerCodec (pipe_with [Arith_Sub_1]))
     ([CallReadRequestHeader Request_zero]
      ++ CallWriteResponse (Response.mk "Arith.Sub" 1 None) (Some (AInt 19))
         :: [CallReadRequestBody None]),
   Some (errors_New "invalid sequence number in response")).
Proof.
  assert (Hs : is_Some (pending (run (NewServerCodec (pipe_with [Arith_Sub_1]))
                                   [CallReadRequestHeader Request_zero]) !! 1)).
  { exists (Some "1"). reflexivity. }
  split; [exact Hs |].
  apply (WriteResponse_once_per_run (pipe_with [Arith_Sub_1])
           [CallReadRequestHeader Request_zero]
           (Response.mk "Arith.Sub" 1 None) (Some (AInt 19))
           [CallReadRequestBody None]
           (Response.mk "Arith.Sub" 1 None) (Some (AInt 19))).
  - vm_compute. reflexivity.
  - exact Hs.
  - reflexivity.
  - reflexivity.
Defined.

(** X22: the rejected [foobar], answered under the sequence number 0. *)
Lemma WriteResponse_rejected_zero_seq_witness :
  WriteResponse
    (run (NewServerCodec (pipe_with [foobar_no_dot]))
       [CallReadRequestHeader Request_zero])
    (Response.mk "foobar" 0 (Some (ill_formed "foobar"))) None =
  Encode
    (run (NewServerCodec (pipe_with [foobar_no_dot]))
       [CallReadRequestHeader Request_zero])
    {| serverResponse.Version := "2.0";
       serverResponse.Id := Some "null";
       serverResponse.Result := None;
       serverResponse.Error := Some (ill_formed "foobar") |}.
Proof.
  apply (WriteResponse_rejected_zero_seq (pipe_with [foobar_no_dot])
           [CallReadRequestHeader Request_zero]
           (Response.mk "foobar" 0 (Some (ill_formed "foobar"))) None
           (ill_formed "foobar")).
  - vm_compute. reflexivity.
  - reflexivity.
  - reflexivity.
Defined.
